(** * BlenderKit [daemon_lib.py]: the client side of the local daemon

    A shallow embedding of [daemon_lib.py] — the port registry, the request
    gateway, the health probe, the status notifier, the exit-code
    classifier and the process launcher — and the properties of it that the
    specification states.

    Python's module globals ([global_vars.*]) and the effects the module has
    on the outside (HTTP requests, user reports, log records, printed lines)
    are threaded through a state-and-exception monad.  Everything the module
    only reads from its host (the process id, Blender's preferences, the
    file system, the network, the child process) is a field of [Host]. *)

From stdpp Require Import gmap strings list.
From Stdlib Require Import ZArith QArith DecimalString.

Set Warnings "-register-all".
Local Open Scope Z_scope.
Local Open Scope string_scope.
Local Open Scope list_scope.

(** ** Values *)

(** What [json=] carries and what [resp.json()] gives back. *)
Inductive json :=
| JNone
| JBool (b : bool)
| JInt (n : Z)
| JStr (s : string)
| JList (l : list json)
| JDict (d : gmap string json).

(** The characters a string literal cannot hold as they are. *)
Definition dquote : string := String (Ascii.ascii_of_nat 34%nat) EmptyString.
Definition newline : string := String (Ascii.ascii_of_nat 10%nat) EmptyString.

(** [repr(s)] of a Python str that holds no quote, no backslash and no
    control character, as the keys and the ports of this module: the text in
    single quotes.  It is how [KeyError] and [list.index] show the value
    they did not find. *)
Definition py_repr (s : string) : string := "'" +:+ s +:+ "'".

(** [str(n)] of a Python int, as f-strings format it. *)
Definition str_of_int (n : Z) : string := NilZero.string_of_int (Z.to_int n).

(** ** Exceptions *)

(** The exception classes this module can meet.  [RequestsConnectionError]
    is [requests.exceptions.ConnectionError]; [RequestException] and its
    subclasses derive from [IOError], that is [OSError]. *)
Inductive exn_class :=
| KeyboardInterrupt
| SystemExit
| Exception
| AttributeError
| IndexError
| KeyError
| TypeError
| ValueError
| OSError
| FileNotFoundError
| PermissionError
| RequestException
| RequestsConnectionError
| ConnectTimeout
| ReadTimeout
| JSONDecodeError.

Record exn := Exn {
  exn_type : exn_class;
  exn_str : string;            (* str(e) *)
  exn_winerror : option Z      (* e.winerror, on Windows *)
}.

Definition is_requests_ConnectionError (c : exn_class) : bool :=
  match c with
  | RequestsConnectionError | ConnectTimeout => true
  | _ => false
  end.

Definition is_PermissionError (c : exn_class) : bool :=
  match c with
  | PermissionError => true
  | _ => false
  end.

Definition is_OSError (c : exn_class) : bool :=
  match c with
  | OSError | FileNotFoundError | PermissionError
  | RequestException | RequestsConnectionError | ConnectTimeout
  | ReadTimeout | JSONDecodeError => true
  | _ => false
  end.

(** [isinstance(e, Exception)]: everything but the two that derive from
    [BaseException] directly. *)
Definition is_Exception (c : exn_class) : bool :=
  match c with
  | KeyboardInterrupt | SystemExit => false
  | _ => true
  end.

(** [str(type(e))]. *)
Definition type_repr (c : exn_class) : string :=
  match c with
  | KeyboardInterrupt => "<class 'KeyboardInterrupt'>"
  | SystemExit => "<class 'SystemExit'>"
  | Exception => "<class 'Exception'>"
  | AttributeError => "<class 'AttributeError'>"
  | IndexError => "<class 'IndexError'>"
  | KeyError => "<class 'KeyError'>"
  | TypeError => "<class 'TypeError'>"
  | ValueError => "<class 'ValueError'>"
  | OSError => "<class 'OSError'>"
  | FileNotFoundError => "<class 'FileNotFoundError'>"
  | PermissionError => "<class 'PermissionError'>"
  | RequestException => "<class 'requests.exceptions.RequestException'>"
  | RequestsConnectionError => "<class 'requests.exceptions.ConnectionError'>"
  | ConnectTimeout => "<class 'requests.exceptions.ConnectTimeout'>"
  | ReadTimeout => "<class 'requests.exceptions.ReadTimeout'>"
  | JSONDecodeError => "<class 'requests.exceptions.JSONDecodeError'>"
  end.

Definition mk_exn (c : exn_class) (msg : string) : exn :=
  {| exn_type := c; exn_str := msg; exn_winerror := None |}.

(** ** Requests and responses *)

Inductive http_method := GET | POST.

(** One call of [session.get] or [session.post] with the keyword arguments
    the module passes; [None] is a keyword left out. *)
Record Request := {
  req_method : http_method;
  req_url : string;
  req_json : option (gmap string json);
  req_timeout : option (Q * Q);
  req_proxies : option (gmap string string)
}.

Record Response := {
  status_code : Z;
  text : string;
  resp_json : exn + json       (* what resp.json() does *)
}.

(** [TIMEOUT = (0.1, 0.5)], in seconds. *)
Definition TIMEOUT : Q * Q := (0.1, 0.5)%Q.

(** ** The child process *)

Record CompletedProcess := {
  returncode : Z;
  stdout_repr : string;
  stderr_repr : string
}.

Record PopenCall := {
  popen_args : list (option string);
  popen_env : gmap string string;
  popen_log : string;                  (* stdout = stderr = open(log, "wb") *)
  popen_creationflags : Z
}.

Record Process := {
  pid : Z;
  spawned_by : PopenCall
}.

(** ** User reports, log records *)

(** The arguments of one [reports.add_report] call; [None] is an argument
    left to its default. *)
Record Report := {
  report_text : string;
  report_timeout : option Z;
  report_type : option string
}.

Inductive log_level := DEBUG | INFO | WARNING.

(** ** The state: [global_vars], the UI and the effects so far *)

Record State := {
  DAEMON_PORTS : list string;
  DAEMON_FAILED_REPORTS : Z;
  DAEMON_ONLINE : bool;
  daemon_process : option Process;
  SERVER : string;
  PREFS : gmap string string;
  VERSION : Z * Z * Z * Z;
  logo_status : string;                (* wm.blenderkitUI.logo_status *)
  sent : list Request;                 (* requests issued, oldest first *)
  reports : list Report;               (* reports.add_report, oldest first *)
  logs : list (log_level * string);    (* bk_logger records, oldest first *)
  printed : list string                (* print(), oldest first *)
}.

(** ** The host *)

(** The network answers a request knowing the requests made before it. *)
Record Host := {
  os_getpid : Z;
  http : list Request -> Request -> exn + Response;
  prefs_api_key : string;
  prefs_system_id : string;
  prefs_global_dir : string;
  dependencies_path : string;
  preinstalled_deps_path : string;
  installed_deps_path : string;
  platform_system : string;
  sys_executable : string;
  os_pathsep : string;
  environ : gmap string string;
  module_file : string;                   (* __file__ *)
  path_dirname : string -> string;
  path_join : string -> string -> string;
  path_abspath : string -> string;
  urlparse_netloc : string -> string;
  repr_env : gmap string string -> string;
  CREATE_NO_WINDOW : Z;
  subprocess_run : list string -> gmap string string -> exn + CompletedProcess;
  open_wb : string -> option exn;
  subprocess_Popen : PopenCall -> exn + Process;
  process_poll : Process -> option Z
}.

(** ** The monad *)

Inductive result (A : Type) :=
| Return (a : A)
| Raise (e : exn).
Arguments Return {A} a.
Arguments Raise {A} e.

Definition M (A : Type) : Type := State -> result A * State.

#[export] Instance M_ret : MRet M := λ A a st, (Return a, st).

#[export] Instance M_bind : MBind M := λ A B f m st,
  match m st with
  | (Return a, st') => f a st'
  | (Raise e, st') => (Raise e, st')
  end.

Definition raise {A} (e : exn) : M A := λ st, (Raise e, st).

(** [try: body  except <class> as e: handler e]; an exception the clause
    does not match goes on. *)
Definition try_except {A} (body : M A) (catches : exn_class -> bool)
    (handler : exn -> M A) : M A := λ st,
  match body st with
  | (Return a, st') => (Return a, st')
  | (Raise e, st') =>
      if catches (exn_type e) then handler e st' else (Raise e, st')
  end.

Definition gets {A} (f : State -> A) : M A := λ st, (Return (f st), st).
Definition modify (f : State -> State) : M unit := λ st, (Return (), f st).

Definition lift {A} (r : exn + A) : M A :=
  match r with
  | inl e => raise e
  | inr a => mret a
  end.

(** ** Primitive effects *)

Definition set_ports (l : list string) (st : State) : State :=
  {| DAEMON_PORTS := l;
     DAEMON_FAILED_REPORTS := DAEMON_FAILED_REPORTS st;
     DAEMON_ONLINE := DAEMON_ONLINE st;
     daemon_process := daemon_process st;
     SERVER := SERVER st; PREFS := PREFS st; VERSION := VERSION st;
     logo_status := logo_status st;
     sent := sent st; reports := reports st; logs := logs st;
     printed := printed st |}.

Definition set_online (b : bool) (st : State) : State :=
  {| DAEMON_PORTS := DAEMON_PORTS st;
     DAEMON_FAILED_REPORTS := DAEMON_FAILED_REPORTS st;
     DAEMON_ONLINE := b;
     daemon_process := daemon_process st;
     SERVER := SERVER st; PREFS := PREFS st; VERSION := VERSION st;
     logo_status := logo_status st;
     sent := sent st; reports := reports st; logs := logs st;
     printed := printed st |}.

Definition set_process (p : Process) (st : State) : State :=
  {| DAEMON_PORTS := DAEMON_PORTS st;
     DAEMON_FAILED_REPORTS := DAEMON_FAILED_REPORTS st;
     DAEMON_ONLINE := DAEMON_ONLINE st;
     daemon_process := Some p;
     SERVER := SERVER st; PREFS := PREFS st; VERSION := VERSION st;
     logo_status := logo_status st;
     sent := sent st; reports := reports st; logs := logs st;
     printed := printed st |}.

Definition set_logo (s : string) (st : State) : State :=
  {| DAEMON_PORTS := DAEMON_PORTS st;
     DAEMON_FAILED_REPORTS := DAEMON_FAILED_REPORTS st;
     DAEMON_ONLINE := DAEMON_ONLINE st;
     daemon_process := daemon_process st;
     SERVER := SERVER st; PREFS := PREFS st; VERSION := VERSION st;
     logo_status := s;
     sent := sent st; reports := reports st; logs := logs st;
     printed := printed st |}.

Definition push_sent (r : Request) (st : State) : State :=
  {| DAEMON_PORTS := DAEMON_PORTS st;
     DAEMON_FAILED_REPORTS := DAEMON_FAILED_REPORTS st;
     DAEMON_ONLINE := DAEMON_ONLINE st;
     daemon_process := daemon_process st;
     SERVER := SERVER st; PREFS := PREFS st; VERSION := VERSION st;
     logo_status := logo_status st;
     sent := sent st ++ [r]; reports := reports st; logs := logs st;
     printed := printed st |}.

Definition push_report (r : Report) (st : State) : State :=
  {| DAEMON_PORTS := DAEMON_PORTS st;
     DAEMON_FAILED_REPORTS := DAEMON_FAILED_REPORTS st;
     DAEMON_ONLINE := DAEMON_ONLINE st;
     daemon_process := daemon_process st;
     SERVER := SERVER st; PREFS := PREFS st; VERSION := VERSION st;
     logo_status := logo_status st;
     sent := sent st; reports := reports st ++ [r]; logs := logs st;
     printed := printed st |}.

Definition push_log (r : log_level * string) (st : State) : State :=
  {| DAEMON_PORTS := DAEMON_PORTS st;
     DAEMON_FAILED_REPORTS := DAEMON_FAILED_REPORTS st;
     DAEMON_ONLINE := DAEMON_ONLINE st;
     daemon_process := daemon_process st;
     SERVER := SERVER st; PREFS := PREFS st; VERSION := VERSION st;
     logo_status := logo_status st;
     sent := sent st; reports := reports st; logs := logs st ++ [r];
     printed := printed st |}.

Definition push_printed (s : string) (st : State) : State :=
  {| DAEMON_PORTS := DAEMON_PORTS st;
     DAEMON_FAILED_REPORTS := DAEMON_FAILED_REPORTS st;
     DAEMON_ONLINE := DAEMON_ONLINE st;
     daemon_process := daemon_process st;
     SERVER := SERVER st; PREFS := PREFS st; VERSION := VERSION st;
     logo_status := logo_status st;
     sent := sent st; reports := reports st; logs := logs st;
     printed := printed st ++ [s] |}.

(** [reports.add_report(text, timeout, type)]. *)
Definition add_report (txt : string) (timeout : option Z) (type : option string) : M unit :=
  modify (push_report {| report_text := txt; report_timeout := timeout;
                         report_type := type |}).

Definition bk_logger (lvl : log_level) (msg : string) : M unit :=
  modify (push_log (lvl, msg)).

Definition print (s : string) : M unit := modify (push_printed s).

(** [l.index(x)]: the first position of [x], [ValueError] without one. *)
Definition index (x : string) (l : list string) : exn + nat :=
  match list_find (λ y, y = x) l with
  | Some (i, _) => inr i
  | None => inl (mk_exn ValueError (py_repr x +:+ " is not in list"))
  end.

(** ** The module *)

Section daemon_lib.
Variable host : Host.

(** [session.get(...)] / [session.post(...)] inside [with requests.Session()]:
    the request goes out, and the network answers or the call raises. *)
Definition session_request (r : Request) : M Response := λ st,
  (match http host (sent st) r with
   | inl e => Raise e
   | inr resp => Return resp
   end, push_sent r st).

Definition session_get (url : string) (body : option (gmap string json))
    (timeout : option (Q * Q)) (proxies : option (gmap string string)) : M Response :=
  session_request {| req_method := GET; req_url := url; req_json := body;
                     req_timeout := timeout; req_proxies := proxies |}.

Definition session_post (url : string) (body : option (gmap string json))
    (timeout : option (Q * Q)) (proxies : option (gmap string string)) : M Response :=
  session_request {| req_method := POST; req_url := url; req_json := body;
                     req_timeout := timeout; req_proxies := proxies |}.

(** *** Port registry *)

Definition get_port : M string :=
  ports ← gets DAEMON_PORTS;
  match ports with
  | p :: _ => mret p
  | [] => raise (mk_exn IndexError "list index out of range")
  end.

Definition get_address : M string :=
  port ← get_port;
  mret ("http://127.0.0.1:" +:+ port).

Definition reorder_ports (port : string) : M unit :=
  ports ← gets DAEMON_PORTS;
  i ← lift (index port ports);
  modify (set_ports (drop i ports ++ take i ports)).

Definition get_daemon_directory_path : string :=
  let global_dir := prefs_global_dir host in
  let directory := path_join host global_dir "daemon" in
  path_abspath host directory.

(** *** Report fetching *)

Definition request_report (url : string) (data : gmap string json) : M json :=
  resp ← session_get url (Some data) (Some TIMEOUT) (Some ∅);
  lift (resp_json resp).

(** The [for port in global_vars.DAEMON_PORTS] loop over the list as it was
    when the loop began, and the [raise last_exception] after it. *)
Fixpoint get_reports_fallback (ports : list string) (data : gmap string json)
    (last_exception : option exn) : M json :=
  match ports with
  | port :: rest =>
      let url := "http://127.0.0.1:" +:+ port +:+ "/report" in
      try_except
        (report ← request_report url data;
         _ ← bk_logger WARNING ("Got reports port " +:+ port +:+
                                ", setting it as default for this instance");
         _ ← reorder_ports port;
         mret report)
        is_Exception
        (λ e,
         _ ← print ("Failed to get reports on: " +:+ exn_str e);
         get_reports_fallback rest data (Some e))
  | [] =>
      match last_exception with
      | Some e => raise e
      | None => raise (mk_exn TypeError "exceptions must derive from BaseException")
      end
  end.

Definition get_reports (app_id : json) (api_key : string) : M json :=
  let data : gmap string json :=
    <["api_key" := JStr api_key]> (<["app_id" := app_id]> ∅) in
  failed ← gets DAEMON_FAILED_REPORTS;
  if bool_decide (failed < 10) then
    address ← get_address;
    let url := address +:+ "/report" in
    report ← request_report url data;
    mret report
  else
    ports ← gets DAEMON_PORTS;
    get_reports_fallback ports data None.

(** *** Feature requests *)

Definition search_asset (data : gmap string json) : M json :=
  _ ← bk_logger DEBUG "Starting search request";
  address ← get_address;
  let data := <["app_id" := JInt (os_getpid host)]> data in
  let url := address +:+ "/search_asset" in
  resp ← session_post url (Some data) (Some TIMEOUT) (Some ∅);
  _ ← bk_logger DEBUG "Got search response";
  lift (resp_json resp).

Definition download_asset (data : gmap string json) : M json :=
  address ← get_address;
  let data := <["app_id" := JInt (os_getpid host)]> data in
  let url := address +:+ "/download_asset" in
  resp ← session_post url (Some data) (Some TIMEOUT) (Some ∅);
  lift (resp_json resp).

Definition upload_asset (upload_data export_data upload_set : json) : M json :=
  let data : gmap string json :=
    <["upload_set" := upload_set]> (<["export_data" := export_data]>
    (<["upload_data" := upload_data]> (<["app_id" := JInt (os_getpid host)]> ∅))) in
  address ← get_address;
  let url := address +:+ "/upload_asset" in
  _ ← bk_logger DEBUG ("making a request to: " +:+ url);
  resp ← session_post url (Some data) (Some TIMEOUT) (Some ∅);
  lift (resp_json resp).

Definition kill_download (task_id : json) : M Response :=
  address ← get_address;
  let url := address +:+ "/kill_download" in
  resp ← session_get url (Some (<["task_id" := task_id]> ∅)) (Some TIMEOUT) (Some ∅);
  mret resp.

(** Profiles *)

Definition fetch_gravatar_image (author_data : gmap string json) : M Response :=
  let author_data := <["app_id" := JInt (os_getpid host)]> author_data in
  address ← get_address;
  session_get (address +:+ "/profiles/fetch_gravatar_image") (Some author_data) None None.

Definition get_user_profile (api_key : json) : M Response :=
  let data : gmap string json :=
    <["app_id" := JInt (os_getpid host)]> (<["api_key" := api_key]> ∅) in
  address ← get_address;
  session_get (address +:+ "/profiles/get_user_profile") (Some data) None None.

(** Comments *)

Definition get_comments (asset_id : json) (api_key : json) : M Response :=
  let data : gmap string json :=
    <["app_id" := JInt (os_getpid host)]> (<["api_key" := api_key]>
    (<["asset_id" := asset_id]> ∅)) in
  address ← get_address;
  session_post (address +:+ "/comments/get_comments") (Some data) None None.

Definition create_comment (asset_id comment_text api_key reply_to_id : json) : M Response :=
  let data : gmap string json :=
    <["app_id" := JInt (os_getpid host)]> (<["reply_to_id" := reply_to_id]>
    (<["api_key" := api_key]> (<["comment_text" := comment_text]>
    (<["asset_id" := asset_id]> ∅)))) in
  address ← get_address;
  session_post (address +:+ "/comments/create_comment") (Some data) None None.

Definition feedback_comment (asset_id comment_id api_key flag : json) : M Response :=
  let data : gmap string json :=
    <["app_id" := JInt (os_getpid host)]> (<["flag" := flag]>
    (<["api_key" := api_key]> (<["comment_id" := comment_id]>
    (<["asset_id" := asset_id]> ∅)))) in
  address ← get_address;
  session_post (address +:+ "/comments/feedback_comment") (Some data) None None.

Definition mark_comment_private (asset_id comment_id api_key is_private : json) : M Response :=
  let data : gmap string json :=
    <["app_id" := JInt (os_getpid host)]> (<["is_private" := is_private]>
    (<["api_key" := api_key]> (<["comment_id" := comment_id]>
    (<["asset_id" := asset_id]> ∅)))) in
  address ← get_address;
  session_post (address +:+ "/comments/mark_comment_private") (Some data) None None.

(** Notifications *)

Definition mark_notification_read (notification_id : json) : M Response :=
  let data : gmap string json :=
    <["app_id" := JInt (os_getpid host)]> (<["api_key" := JStr (prefs_api_key host)]>
    (<["notification_id" := notification_id]> ∅)) in
  address ← get_address;
  session_post (address +:+ "/notifications/mark_notification_read") (Some data) None None.

(** Reports *)

Definition report_usages (report : gmap string json) : M Response :=
  let report := <["api_key" := JStr (prefs_api_key host)]> report in
  let report := <["app_id" := JInt (os_getpid host)]> report in
  address ← get_address;
  resp ← session_post (address +:+ "/report_usages") (Some report) None None;
  mret resp.

(** Authorization *)

Definition send_code_verifier (code_verifier : json) : M Response :=
  let data : gmap string json := <["code_verifier" := code_verifier]> ∅ in
  address ← get_address;
  resp ← session_post (address +:+ "/code_verifier") (Some data) (Some TIMEOUT) (Some ∅);
  mret resp.

(** Wrappers *)

(** [j[k]] for a string key; the [TypeError] texts are CPython 3.10's. *)
Definition subscript (j : json) (k : string) : exn + json :=
  match j with
  | JDict d =>
      match d !! k with
      | Some v => inr v
      | None => inl (mk_exn KeyError (py_repr k))
      end
  | JNone => inl (mk_exn TypeError "'NoneType' object is not subscriptable")
  | JBool _ => inl (mk_exn TypeError "'bool' object is not subscriptable")
  | JInt _ => inl (mk_exn TypeError "'int' object is not subscriptable")
  | JStr _ => inl (mk_exn TypeError "string indices must be integers")
  | JList _ => inl (mk_exn TypeError "list indices must be integers or slices, not str")
  end.

Definition get_download_url (asset_data scene_id api_key : json) : M (json * json) :=
  let data : gmap string json :=
    <["PREFS" := JDict (<["scene_id" := scene_id]> (<["api_key" := api_key]> ∅))]>
    (<["asset_data" := asset_data]> (<["resolution" := JStr "blend"]>
    (<["app_id" := JInt (os_getpid host)]> ∅))) in
  address ← get_address;
  let url := address +:+ "/wrappers/get_download_url" in
  resp ← session_get url (Some data) None None;
  resp ← lift (resp_json resp);
  has_url ← lift (subscript resp "has_url");
  asset_data' ← lift (subscript resp "asset_data");
  mret (has_url, asset_data').

Definition refresh_token (refresh_token : json) : M Response :=
  address ← get_address;
  let url := address +:+ "/refresh_token" in
  resp ← session_get url (Some (<["refresh_token" := refresh_token]> ∅))
           (Some TIMEOUT) (Some ∅);
  mret resp.

(** *** Health probe *)

Definition daemon_is_alive : M (bool * string) :=
  address ← get_address;
  try_except
    (resp ← session_get address None (Some TIMEOUT) (Some ∅);
     if bool_decide (status_code resp ≠ 200) then
       mret (false, "Server response not 200: " +:+ str_of_int (status_code resp))
     else
       mret (true, "Server alive, PID: " +:+ text resp))
    is_requests_ConnectionError
    (λ err,
     mret (false, "EXCEPTION OCCURED:" +:+ dquote +:+ ", " +:+ exn_str err +:+
                  ", " +:+ type_repr (exn_type err))).

Definition report_blender_quit : M Response :=
  address ← get_address;
  let url := address +:+ "/report_blender_quit" in
  resp ← session_get url (Some (<["app_id" := JInt (os_getpid host)]> ∅))
           (Some TIMEOUT) (Some ∅);
  mret resp.

Definition kill_daemon_server : M Response :=
  address ← get_address;
  let url := address +:+ "/shutdown" in
  resp ← session_get url None (Some TIMEOUT) (Some ∅);
  mret resp.

(** *** Status notifier *)

(** [d[k]] on a dict. *)
Definition dict_item (d : gmap string json) (k : string) : exn + json :=
  match d !! k with
  | Some v => inr v
  | None => inl (mk_exn KeyError (py_repr k))
  end.

(** [v == n] for an int [n]. *)
Definition eq_int (v : json) (n : Z) : bool :=
  match v with
  | JInt m => bool_decide (m = n)
  | _ => false
  end.

Definition handle_daemon_status_task (task_result : gmap string json) : M unit :=
  bk_server_status ← lift (dict_item task_result "online_status");
  if eq_int bk_server_status 200 then
    online ← gets DAEMON_ONLINE;
    if negb online then
      server ← gets SERVER;
      _ ← add_report ("Connected to " +:+ urlparse_netloc host server) None None;
      _ ← modify (set_logo "logo");
      modify (set_online true)
    else mret ()
  else
    online ← gets DAEMON_ONLINE;
    if (online : bool) then
      server ← gets SERVER;
      _ ← (if eq_int bk_server_status 429 then
             add_report ("API limit exceeded for " +:+ urlparse_netloc host server)
                        (Some 10) (Some "ERROR")
           else
             add_report ("Disconnected from " +:+ urlparse_netloc host server)
                        (Some 10) (Some "ERROR"));
      _ ← modify (set_logo "logo_offline");
      modify (set_online false)
    else mret ().

(** *** Exit-code classifier *)

Definition check_daemon_exit_code : M (option Z * string) :=
  proc ← gets daemon_process;
  match proc with
  | None => raise (mk_exn AttributeError "'NoneType' object has no attribute 'poll'")
  | Some p =>
      match process_poll host p with
      | None => mret (None, "Daemon process is running.")
      | Some exit_code =>
          port ← get_port;
          let log_path := get_daemon_directory_path +:+ "/daemon-" +:+ port +:+ ".log" in
          let message :=
            if bool_decide (exit_code = 101) then
              "failed to import AIOHTTP. Try to delete " +:+ dependencies_path host +:+
              " and restart Blender."
            else if bool_decide (exit_code = 102) then
              "failed to import CERTIFI. Try to delete " +:+ dependencies_path host +:+
              " and restart Blender."
            else if bool_decide (exit_code = 100) then
              "unexpected OSError. Please report a bug and paste content of log " +:+ log_path
            else if bool_decide (exit_code = 111) then
              "unable to bind any socket. Check your antivirus/firewall and unblock BlenderKit."
            else if bool_decide (exit_code = 113) then
              "cannot open port. Check your antivirus/firewall and unblock BlenderKit."
            else if bool_decide (exit_code = 114) then
              "invalid pointer address. Please report a bug and paste content of log " +:+ log_path
            else if bool_decide (exit_code = 121) then
              "semaphore timeout exceeded. In preferences set IP version to " +:+
              dquote +:+ "Use only IPv4" +:+ dquote +:+ "."
            else if bool_decide (exit_code = 148) then
              "address already in use. Select different daemon port in preferences."
            else if bool_decide (exit_code = 149) then
              "address already in use. Select different daemon port in preferences."
            else
              "unexpected Exception. Please report a bug and paste content of log " +:+ log_path
          in
          mret (Some exit_code, message)
      end
  end.

(** *** Process launcher *)

(** [env] and [creation_flags] as [start_daemon_server] builds them. *)
Definition launch_env : exn + (gmap string string * Z) :=
  let env := environ host in
  let env := <["PYTHONPATH" := installed_deps_path host +:+ os_pathsep host +:+
                               preinstalled_deps_path host]> env in
  let python_home := path_abspath host (path_dirname host (sys_executable host) +:+ "/..") in
  let env := <["PYTHONHOME" := python_home]> env in
  let creation_flags := 0 in
  if bool_decide (platform_system host = "Windows") then
    match env !! "PATH" with
    | Some old =>
        inr (<["PATH" := old +:+ os_pathsep host +:+
                 path_abspath host (path_dirname host (sys_executable host) +:+
                                    "/../../../blender.crt")]> env,
             CREATE_NO_WINDOW host)
    | None => inl (mk_exn KeyError (py_repr "PATH"))
    end
  else inr (env, creation_flags).

Definition version_string (v : Z * Z * Z * Z) : string :=
  let '(a, b, c, d) := v in
  str_of_int a +:+ "." +:+ str_of_int b +:+ "." +:+ str_of_int c +:+ "." +:+ str_of_int d.

(** The body of the [try]: open the log, build the arguments, spawn, and
    keep the handle in [global_vars.daemon_process]. *)
Definition spawn (log_path daemon_path : string) (env : gmap string string)
    (creation_flags : Z) : M unit :=
  _ ← match open_wb host log_path with
      | Some e => raise e
      | None => mret ()
      end;
  port ← get_port;
  server ← gets SERVER;
  prefs ← gets PREFS;
  version ← gets VERSION;
  p ← lift (subprocess_Popen host
        {| popen_args :=
             [ Some (sys_executable host);
               Some "-u"; Some daemon_path;
               Some "--port"; Some port;
               Some "--server"; Some server;
               Some "--proxy_which"; prefs !! "proxy_which";
               Some "--proxy_address"; prefs !! "proxy_address";
               Some "--proxy_ca_certs"; prefs !! "proxy_ca_certs";
               Some "--ip_version"; prefs !! "ip_version";
               Some "--system_id"; Some (prefs_system_id host);
               Some "--version"; Some (version_string version) ];
           popen_env := env;
           popen_log := log_path;
           popen_creationflags := creation_flags |});
  modify (set_process p).

(** The [except] clauses, in their order. *)
Definition spawn_failed (daemon_dir : string) (e : exn) : M unit :=
  if is_PermissionError (exn_type e) then
    _ ← add_report ("FATAL ERROR: Write access denied to " +:+ daemon_dir +:+
                    ". Check you have write permissions to the directory.")
                   (Some 10) (Some "ERROR");
    raise e
  else if is_OSError (exn_type e) then
    if bool_decide (platform_system host ≠ "Windows") then
      _ ← add_report (exn_str e) (Some 10) (Some "ERROR");
      raise e
    else if bool_decide (exn_winerror e = Some 87) then
      let error_message :=
        "FATAL ERROR: Daemon server blocked from starting. Please check your antivirus or firewall. Error: "
        +:+ exn_str e in
      _ ← add_report error_message (Some 10) (Some "ERROR");
      raise e
    else
      _ ← add_report (exn_str e) (Some 10) (Some "ERROR");
      raise e
  else
    _ ← add_report ("Error: Daemon server failed to start - " +:+ exn_str e)
                   (Some 10) (Some "ERROR");
    raise e.

Definition preflight_warning (python_check : CompletedProcess)
    (env : gmap string string) : string :=
  "Error checking Python interpreter, exit code: " +:+ str_of_int (returncode python_check) +:+ "," +:+
  "Stdout: " +:+ stdout_repr python_check +:+ ", " +:+
  "Stderr: " +:+ stderr_repr python_check +:+ ", " +:+
  "Where Python: " +:+ sys_executable host +:+ ", " +:+
  "Environment: " +:+ repr_env host env.

(** The lines after the [try] statement. *)
Definition report_launch (log_path : string) (python_check : CompletedProcess) : M unit :=
  if bool_decide (returncode python_check = 0) then
    address ← get_address;
    bk_logger INFO ("Daemon server starting on address " +:+ address +:+
                    ", log file for errors located at: " +:+ log_path)
  else
    address ← get_address;
    proc ← gets daemon_process;
    match proc with
    | None => raise (mk_exn AttributeError "'NoneType' object has no attribute 'pid'")
    | Some p =>
        _ ← bk_logger WARNING ("Tried to start daemon server on address " +:+ address +:+
                               ", PID: " +:+ str_of_int (pid p) +:+ "," +:+ newline +:+
                               "log file located at: " +:+ log_path);
        add_report "Due to unsuccessful Python check the daemon server will probably fail to run. Please report a bug at BlenderKit."
                   (Some 5) (Some "ERROR")
    end.

Definition start_daemon_server : M unit :=
  let daemon_dir := get_daemon_directory_path in
  port ← get_port;
  let log_path := daemon_dir +:+ "/daemon-" +:+ port +:+ ".log" in
  let blenderkit_path := path_dirname host (module_file host) in
  let daemon_path := path_join host blenderkit_path "daemon/daemon.py" in
  '(env, creation_flags) ← lift launch_env;
  python_check ← lift (subprocess_run host [sys_executable host; "--version"] env);
  _ ← (if bool_decide (returncode python_check ≠ 0) then
         bk_logger WARNING (preflight_warning python_check env)
       else mret ());
  _ ← try_except (spawn log_path daemon_path env creation_flags)
        is_Exception (spawn_failed daemon_dir);
  report_launch log_path python_check.

End daemon_lib.

(** ** Vocabulary of the statements *)

(** [needle in hay], on strings. *)
Fixpoint contains (needle hay : string) : bool :=
  String.prefix needle hay ||
  match hay with
  | EmptyString => false
  | String _ rest => contains needle rest
  end.

(** The registry with every [p] taken out, the others in their order. *)
Definition without (p : string) (l : list string) : list string :=
  filter (λ q, q ≠ p) l.

(** The request [request_report] sends for a port. *)
Definition report_request (data : gmap string json) (port : string) : Request :=
  {| req_method := GET;
     req_url := "http://127.0.0.1:" +:+ port +:+ "/report";
     req_json := Some data;
     req_timeout := Some TIMEOUT;
     req_proxies := Some ∅ |}.

(** The body [get_reports] sends. *)
Definition report_data (app_id : json) (api_key : string) : gmap string json :=
  <["api_key" := JStr api_key]> (<["app_id" := app_id]> ∅).

(** What asking [port] for its reports comes to, after the requests [hist]:
    the parsed body, or the exception of the transport or of the parser. *)
Definition report_outcome (host : Host) (hist : list Request) (port : string)
    (data : gmap string json) : exn + json :=
  match http host hist (report_request data port) with
  | inl e => inl e
  | inr resp => resp_json resp
  end.

(** The result of a call from what it came to. *)
Definition outcome_result {A} (o : exn + A) : result A :=
  match o with
  | inl e => Raise e
  | inr a => Return a
  end.

(** The ports of [pre] fail one after the other: each is asked after the
    ones before it. *)
Definition all_fail (host : Host) (data : gmap string json) (st : State)
    (pre : list string) : Prop :=
  ∀ k q, pre !! k = Some q →
    ∃ e, report_outcome host (sent st ++ map (report_request data) (take k pre)) q data = inl e ∧
         is_Exception (exn_type e) = true.

(** Running [m] from [st] issues one request, and it satisfies [P]. *)
Definition sends {A} (m : M A) (st : State) (P : Request → Prop) : Prop :=
  ∃ r, sent (m st).2 = sent st ++ [r] ∧ P r.

(** [timeout=TIMEOUT, proxies={}] *)
Definition bounded (r : Request) : Prop :=
  req_timeout r = Some TIMEOUT ∧ req_proxies r = Some ∅.

(** Neither keyword: [requests] then waits without limit and takes its
    proxies from the environment. *)
Definition unbounded (r : Request) : Prop :=
  req_timeout r = None ∧ req_proxies r = None.

Definition carries_app_id (v : json) (r : Request) : Prop :=
  ∃ body, req_json r = Some body ∧ body !! "app_id" = Some v.


(** The probe [daemon_is_alive] sends when the default port is [p]. *)
Definition probe_request (p : string) : Request :=
  {| req_method := GET;
     req_url := "http://127.0.0.1:" +:+ p;
     req_json := None;
     req_timeout := Some TIMEOUT;
     req_proxies := Some ∅ |}.

(** The notices of the status notifier. *)
Definition connected_notice (host : Host) (st : State) : Report :=
  {| report_text := "Connected to " +:+ urlparse_netloc host (SERVER st);
     report_timeout := None; report_type := None |}.

Definition disconnected_notice (host : Host) (st : State) : Report :=
  {| report_text := "Disconnected from " +:+ urlparse_netloc host (SERVER st);
     report_timeout := Some 10; report_type := Some "ERROR" |}.

Definition rate_limit_notice (host : Host) (st : State) : Report :=
  {| report_text := "API limit exceeded for " +:+ urlparse_netloc host (SERVER st);
     report_timeout := Some 10; report_type := Some "ERROR" |}.

(** The paths [start_daemon_server] works with. *)
Definition log_path_of (host : Host) (port : string) : string :=
  get_daemon_directory_path host +:+ "/daemon-" +:+ port +:+ ".log".

Definition daemon_path_of (host : Host) : string :=
  path_join host (path_dirname host (module_file host)) "daemon/daemon.py".

(** The state when the [try] statement is reached: the warning of a failed
    interpreter check is in the log. *)
Definition after_check (host : Host) (check : CompletedProcess)
    (env : gmap string string) (st : State) : State :=
  if bool_decide (returncode check ≠ 0) then
    push_log (WARNING, preflight_warning host check env) st
  else st.

(** The report of a failed spawn, by the [except] clause that takes it. *)
Definition failure_notice (host : Host) (daemon_dir : string) (e : exn) : Report :=
  {| report_text :=
       if is_PermissionError (exn_type e) then
         "FATAL ERROR: Write access denied to " +:+ daemon_dir +:+
         ". Check you have write permissions to the directory."
       else if is_OSError (exn_type e) then
         if bool_decide (platform_system host = "Windows") &&
            bool_decide (exn_winerror e = Some 87)
         then "FATAL ERROR: Daemon server blocked from starting. Please check your antivirus or firewall. Error: "
              +:+ exn_str e
         else exn_str e
       else "Error: Daemon server failed to start - " +:+ exn_str e;
     report_timeout := Some 10;
     report_type := Some "ERROR" |}.

(** ** A host and a state to run the module on *)

Module Demo.

Definition refused : exn :=
  mk_exn RequestsConnectionError "Connection refused".

Definition timed_out : exn :=
  mk_exn ReadTimeout "Read timed out. (read timeout=0.5)".

Definition not_json : exn :=
  mk_exn JSONDecodeError "Expecting value: line 1 column 1 (char 0)".

(** Port 81 has a daemon behind it, port 82 something that answers 503,
    port 83 something that never answers; the others are closed. *)
Definition network (hist : list Request) (r : Request) : exn + Response :=
  if String.prefix "http://127.0.0.1:81" (req_url r) then
    inr {| status_code := 200; text := "4242";
           resp_json := inr (JDict (<["tasks" := JList []]> ∅)) |}
  else if String.prefix "http://127.0.0.1:82" (req_url r) then
    inr {| status_code := 503; text := "Service Unavailable";
           resp_json := inl not_json |}
  else if String.prefix "http://127.0.0.1:83" (req_url r) then
    inl timed_out
  else inl refused.

Definition proc (c : PopenCall) : Process := {| pid := 4242; spawned_by := c |}.

Definition python (code : Z) : exn + CompletedProcess :=
  inr {| returncode := code; stdout_repr := "b'Python 3.10.2'"; stderr_repr := "b''" |}.

(** A machine, by its platform, what the interpreter check gives, what
    opening the log and spawning give, and what polling the child gives. *)
Definition machine (platform : string) (check : exn + CompletedProcess)
    (opening : option exn) (spawning : PopenCall → exn + Process)
    (polling : option Z) : Host :=
  {| os_getpid := 1000;
     http := network;
     prefs_api_key := "KEY";
     prefs_system_id := "SYSTEM";
     prefs_global_dir := "/home/user/blenderkit_data";
     dependencies_path := "/home/user/blenderkit_data/dependencies";
     preinstalled_deps_path := "/addons/blenderkit/dependencies";
     installed_deps_path := "/home/user/blenderkit_data/dependencies/installed";
     platform_system := platform;
     sys_executable := "/usr/bin/python3";
     os_pathsep := ":";
     environ := <["PATH" := "/usr/bin"]> ∅;
     module_file := "/addons/blenderkit/daemon_lib.py";
     path_dirname := λ _, "/addons/blenderkit";
     path_join := λ a b, a +:+ "/" +:+ b;
     path_abspath := λ a, a;
     urlparse_netloc := λ _, "www.blenderkit.com";
     repr_env := λ _, "{...}";
     CREATE_NO_WINDOW := 134217728;
     subprocess_run := λ _ _, check;
     open_wb := λ _, opening;
     subprocess_Popen := spawning;
     process_poll := λ _, polling |}.

Definition host : Host := machine "Linux" (python 0) None (λ c, inr (proc c)) None.

Definition state (ports : list string) (failed : Z) (online : bool) : State :=
  {| DAEMON_PORTS := ports;
     DAEMON_FAILED_REPORTS := failed;
     DAEMON_ONLINE := online;
     daemon_process := None;
     SERVER := "https://www.blenderkit.com";
     PREFS := <["proxy_which" := "SYSTEM"]> (<["proxy_address" := EmptyString]>
              (<["proxy_ca_certs" := EmptyString]> (<["ip_version" := "BOTH"]> ∅)));
     VERSION := (3, 8, 0, 230605);
     logo_status := "logo_offline";
     sent := []; reports := []; logs := []; printed := [] |}.

(** The result of a status task. *)
Definition status_task (status : Z) : gmap string json :=
  <["online_status" := JInt status]> ∅.

(** The child of an earlier launch. *)
Definition child : Process :=
  proc {| popen_args := []; popen_env := ∅;
          popen_log := "/home/user/blenderkit_data/daemon/daemon-62485.log";
          popen_creationflags := 0 |}.

End Demo.

(** ** Further vocabulary *)

(** What [DAEMON_PORTS[0]] raises on an empty registry. *)
Definition no_port : exn := mk_exn IndexError "list index out of range".

(** What [raise None] raises. *)
Definition raise_None : exn :=
  mk_exn TypeError "exceptions must derive from BaseException".

(** Running [m] from [st] raises [e] and no request has gone out. *)
Definition stops_short {A} (m : M A) (st : State) (e : exn) : Prop :=
  (m st).1 = Raise e ∧ sent (m st).2 = sent st.

(** The method and the address of a request. *)
Definition goes_to (method : http_method) (url : string) (r : Request) : Prop :=
  req_method r = method ∧ req_url r = url.

(** Whether a status task reports 200. *)
Definition reports_200 (task : gmap string json) : bool :=
  match task !! "online_status" with
  | Some status => eq_int status 200
  | None => false
  end.

(** How often a sequence of probe results departs from the result before
    it, [flag] being the one before the first. *)
Fixpoint flips (flag : bool) (probes : list bool) : nat :=
  match probes with
  | [] => 0
  | b :: rest => (if Bool.eqb flag b then 0 else 1) + flips b rest
  end.

(** The status tasks of a session, handled one after the other. *)
Definition handle_all (host : Host) (tasks : list (gmap string json))
    (st : State) : State :=
  foldl (λ st task, (handle_daemon_status_task host task st).2) st tasks.

(** The logo shows what the online flag says. *)
Definition logo_matches (st : State) : Prop :=
  logo_status st = if DAEMON_ONLINE st then "logo" else "logo_offline".

(** The value that follows [flag] in a list of (flag, value) pairs. *)
Fixpoint flag_value (flag : string) (args : list (option string))
    : option (option string) :=
  match args with
  | Some f :: v :: rest => if decide (f = flag) then Some v else flag_value flag rest
  | _ => None
  end.

(** The address of a path on the daemon behind port [p]. *)
Definition endpoint (p path : string) : string :=
  ("http://127.0.0.1:" +:+ p) +:+ path.

(** The body of the request holds what [data] held, but for [keys]. *)
Definition passes_on (data : gmap string json) (keys : list string)
    (r : Request) : Prop :=
  ∃ body, req_json r = Some body ∧ ∀ k, k ∉ keys → body !! k = data !! k.

(** Running [m] from [st] sends one request and gives [res]. *)
Definition asks_once {A} (m : M A) (st : State) (res : result A) : Prop :=
  (m st).1 = res ∧ ∃ r, sent (m st).2 = sent st ++ [r].

(** A network that answers every request with the same response. *)
Definition answering (resp : Response) (hist : list Request) (r : Request)
    : exn + Response := inr resp.

(** A response with status 200 whose body parses to the dictionary [d]. *)
Definition ok_response (d : gmap string json) : Response :=
  {| status_code := 200; text := "{}"; resp_json := inr (JDict d) |}.

(** The body of a download-url answer. *)
Definition url_body : gmap string json :=
  <["has_url" := JBool true]> (<["asset_data" := JStr "asset"]> ∅).

(** The machine of [Demo.host] on another network. *)
Definition on_network (net : list Request → Request → exn + Response) : Host :=
  {| os_getpid := 1000;
     http := net;
     prefs_api_key := "KEY";
     prefs_system_id := "SYSTEM";
     prefs_global_dir := "/home/user/blenderkit_data";
     dependencies_path := "/home/user/blenderkit_data/dependencies";
     preinstalled_deps_path := "/addons/blenderkit/dependencies";
     installed_deps_path := "/home/user/blenderkit_data/dependencies/installed";
     platform_system := "Linux";
     sys_executable := "/usr/bin/python3";
     os_pathsep := ":";
     environ := <["PATH" := "/usr/bin"]> ∅;
     module_file := "/addons/blenderkit/daemon_lib.py";
     path_dirname := λ _, "/addons/blenderkit";
     path_join := λ a b, a +:+ "/" +:+ b;
     path_abspath := λ a, a;
     urlparse_netloc := λ _, "www.blenderkit.com";
     repr_env := λ _, "{...}";
     CREATE_NO_WINDOW := 134217728;
     subprocess_run := λ _ _, Demo.python 0;
     open_wb := λ _, None;
     subprocess_Popen := λ c, inr (Demo.proc c);
     process_poll := λ _, None |}.

(** The first request is refused; the user interrupts the second. *)
Definition interrupted (hist : list Request) (r : Request) : exn + Response :=
  match hist with
  | [] => inl Demo.refused
  | _ => inl (mk_exn KeyboardInterrupt EmptyString)
  end.

(** A machine on which nothing listens: every request is refused. *)
Module Offline.

Definition host : Host :=
  {| os_getpid := 1000;
     http := λ _ _, inl Demo.refused;
     prefs_api_key := "KEY";
     prefs_system_id := "SYSTEM";
     prefs_global_dir := "/home/user/blenderkit_data";
     dependencies_path := "/home/user/blenderkit_data/dependencies";
     preinstalled_deps_path := "/addons/blenderkit/dependencies";
     installed_deps_path := "/home/user/blenderkit_data/dependencies/installed";
     platform_system := "Windows";
     sys_executable := "C:/blender/python/bin/python.exe";
     os_pathsep := ";";
     environ := ∅;
     module_file := "C:/addons/blenderkit/daemon_lib.py";
     path_dirname := λ _, "C:/addons/blenderkit";
     path_join := λ a b, a +:+ "/" +:+ b;
     path_abspath := λ a, a;
     urlparse_netloc := λ _, "www.blenderkit.com";
     repr_env := λ _, "{...}";
     CREATE_NO_WINDOW := 134217728;
     subprocess_run := λ _ _, Demo.python 0;
     open_wb := λ _, None;
     subprocess_Popen := λ c, inr (Demo.proc c);
     process_poll := λ _, Some 111 |}.

End Offline.

(** * Properties *)

(** ** Running the monad *)

Lemma bind_Return {A B} (m : M A) (f : A → M B) st a st' :
  m st = (Return a, st') → (m ≫= f) st = f a st'.
Proof. intros H. unfold mbind, M_bind. by rewrite H. Qed.

Lemma bind_Raise {A B} (m : M A) (f : A → M B) st e st' :
  m st = (Raise e, st') → (m ≫= f) st = (Raise e, st').
Proof. intros H. unfold mbind, M_bind. by rewrite H. Qed.

Lemma try_except_Return {A} (m : M A) c h st a st' :
  m st = (Return a, st') → try_except m c h st = (Return a, st').
Proof. intros H. unfold try_except. by rewrite H. Qed.

Lemma try_except_caught {A} (m : M A) c h st e st' :
  m st = (Raise e, st') → c (exn_type e) = true →
  try_except m c h st = h e st'.
Proof. intros H Hc. unfold try_except. by rewrite H, Hc. Qed.

Lemma try_except_passed {A} (m : M A) c h st e st' :
  m st = (Raise e, st') → c (exn_type e) = false →
  try_except m c h st = (Raise e, st').
Proof. intros H Hc. unfold try_except. by rewrite H, Hc. Qed.

Ltac run :=
  unfold mbind, M_bind, mret, M_ret, gets, modify, raise, lift; simpl.

(** ** Port registry *)

Lemma index_Some (x : string) (l : list string) :
  x ∈ l →
  ∃ i, index x l = inr i ∧ l !! i = Some x ∧ x ∉ take i l.
Proof.
  intros Hin. unfold index.
  destruct (list_find (λ y, y = x) l) as [[i y]|] eqn:Hf.
  - apply list_find_Some in Hf as (Hl & -> & Hbefore).
    exists i. split_and!; try done.
    intros Hx. apply list_elem_of_lookup in Hx as [j Hj].
    pose proof (lookup_lt_Some _ _ _ Hj) as Hlt.
    rewrite length_take in Hlt.
    rewrite lookup_take_lt in Hj by lia.
    apply (Hbefore j x); [done|lia|done].
  - apply list_find_None in Hf.
    rewrite Forall_forall in Hf. by destruct (Hf x Hin).
Qed.

Lemma index_None (x : string) (l : list string) :
  x ∉ l → index x l = inl (mk_exn ValueError (py_repr x +:+ " is not in list")).
Proof.
  intros Hnin. unfold index.
  destruct (list_find (λ y, y = x) l) as [[i y]|] eqn:Hf; [|done].
  apply list_find_Some in Hf as (Hl & -> & _).
  destruct Hnin. apply list_elem_of_lookup. eauto.
Qed.

Lemma reorder_ports_found (st : State) (p : string) (i : nat) :
  index p (DAEMON_PORTS st) = inr i →
  reorder_ports p st =
    (Return (), set_ports (drop i (DAEMON_PORTS st) ++ take i (DAEMON_PORTS st)) st).
Proof. intros Hi. unfold reorder_ports. run. by rewrite Hi. Qed.

(** C10: a port that is not in the registry makes [reorder_ports] raise the
    [ValueError] of [list.index], and the state — [DAEMON_PORTS] with it —
    is what it was before the call. *)
Theorem reorder_ports_absent_raises (st : State) (p : string) :
  p ∉ DAEMON_PORTS st →
  ∃ e, reorder_ports p st = (Raise e, st) ∧ exn_type e = ValueError.
Proof.
  intros Hnin. exists (mk_exn ValueError (py_repr p +:+ " is not in list")).
  split; [|done].
  unfold reorder_ports. run. by rewrite (index_None _ _ Hnin).
Qed.

Lemma reorder_ports_absent_raises_witness :
  ∃ e, reorder_ports "83" (Demo.state ["80"; "81"; "82"] 0 false) =
         (Raise e, Demo.state ["80"; "81"; "82"] 0 false) ∧
       exn_type e = ValueError.
Proof.
  apply (reorder_ports_absent_raises (Demo.state ["80"; "81"; "82"] 0 false) "83").
  simpl. rewrite !elem_of_cons, elem_of_nil. intros [?|[?|[?|[]]]]; discriminate.
Defined.

(** ** Report fetching *)

Lemma append_assoc (a b c : string) : (a +:+ b) +:+ c = a +:+ b +:+ c.
Proof.
  induction a as [|ch a IH]; [done|].
  change (String ch ((a +:+ b) +:+ c) = String ch (a +:+ b +:+ c)).
  by rewrite IH.
Qed.

Section report_fetching.
Variable host : Host.
Variable data : gmap string json.

Lemma request_report_run (port : string) (st : State) :
  request_report host ("http://127.0.0.1:" +:+ port +:+ "/report") data st =
    (outcome_result (report_outcome host (sent st) port data),
     push_sent (report_request data port) st).
Proof.
  unfold request_report, session_get, session_request, report_outcome,
    report_request.
  run. destruct (http host _ _) as [e|resp]; simpl; [done|].
  by destruct (resp_json resp).
Qed.

(** One turn of the loop on a port that fails. *)
Lemma fallback_port_fails port rest last st e :
  report_outcome host (sent st) port data = inl e →
  is_Exception (exn_type e) = true →
  get_reports_fallback host (port :: rest) data last st =
    get_reports_fallback host rest data (Some e)
      (push_printed ("Failed to get reports on: " +:+ exn_str e)
         (push_sent (report_request data port) st)).
Proof.
  intros Ho He. simpl.
  erewrite try_except_caught; [| |exact He].
  - run. done.
  - erewrite bind_Raise; [done|]. rewrite request_report_run, Ho. done.
Qed.

(** One turn of the loop on a port that answers. *)
Lemma fallback_port_answers port rest last st r i :
  report_outcome host (sent st) port data = inr r →
  index port (DAEMON_PORTS st) = inr i →
  get_reports_fallback host (port :: rest) data last st =
    (Return r,
     set_ports (drop i (DAEMON_PORTS st) ++ take i (DAEMON_PORTS st))
       (push_log (WARNING, "Got reports port " +:+ port +:+
                           ", setting it as default for this instance")
          (push_sent (report_request data port) st))).
Proof.
  intros Ho Hi. simpl.
  erewrite try_except_Return; [done|].
  erewrite bind_Return; [|rewrite request_report_run, Ho; done].
  run. unfold reorder_ports. run. by rewrite Hi.
Qed.

Lemma fallback_skips pre rest last st :
  all_fail host data st pre →
  ∃ st' last',
    get_reports_fallback host (pre ++ rest) data last st =
      get_reports_fallback host rest data last' st' ∧
    sent st' = sent st ++ map (report_request data) pre ∧
    DAEMON_PORTS st' = DAEMON_PORTS st ∧
    DAEMON_FAILED_REPORTS st' = DAEMON_FAILED_REPORTS st.
Proof.
  revert last st. induction pre as [|q pre IH]; intros last st Hfail.
  - exists st, last. simpl. by rewrite app_nil_r.
  - destruct (Hfail 0%nat q eq_refl) as (e & Ho & He).
    simpl in Ho. rewrite app_nil_r in Ho.
    set (st1 := push_printed ("Failed to get reports on: " +:+ exn_str e)
                  (push_sent (report_request data q) st)).
    destruct (IH (Some e) st1) as (st' & last' & Hrun & Hsent & Hports & Hcnt).
    { intros k q' Hk. destruct (Hfail (S k) q' Hk) as (e' & Ho' & He').
      exists e'. split; [|done].
      simpl in Ho'. simpl. by rewrite <- app_assoc. }
    exists st', last'. split_and!; try done.
    + rewrite <- Hrun. simpl app.
      by apply fallback_port_fails.
    + rewrite Hsent. simpl. by rewrite <- app_assoc.
Qed.

Lemma fallback_first_answer pre p post last st r :
  all_fail host data st pre →
  report_outcome host (sent st ++ map (report_request data) pre) p data = inr r →
  p ∈ DAEMON_PORTS st →
  ∃ st' i,
    get_reports_fallback host (pre ++ p :: post) data last st = (Return r, st') ∧
    sent st' = sent st ++ map (report_request data) (pre ++ [p]) ∧
    index p (DAEMON_PORTS st) = inr i ∧
    DAEMON_PORTS st' = drop i (DAEMON_PORTS st) ++ take i (DAEMON_PORTS st) ∧
    DAEMON_FAILED_REPORTS st' = DAEMON_FAILED_REPORTS st.
Proof.
  intros Hfail Ho Hin.
  destruct (fallback_skips pre (p :: post) last st Hfail)
    as (st1 & last1 & Hrun & Hsent & Hports & Hcnt).
  destruct (index_Some p (DAEMON_PORTS st) Hin) as (i & Hi & _ & _).
  eexists _, i. split_and!.
  - rewrite Hrun. apply fallback_port_answers.
    + by rewrite Hsent.
    + by rewrite Hports.
  - simpl. rewrite Hsent, map_app. simpl. by rewrite <- app_assoc.
  - done.
  - simpl. by rewrite Hports.
  - simpl. done.
Qed.

Lemma fallback_every_port_fails init q last st e :
  all_fail host data st init →
  report_outcome host (sent st ++ map (report_request data) init) q data = inl e →
  is_Exception (exn_type e) = true →
  ∃ st',
    get_reports_fallback host (init ++ [q]) data last st = (Raise e, st') ∧
    sent st' = sent st ++ map (report_request data) (init ++ [q]) ∧
    DAEMON_PORTS st' = DAEMON_PORTS st ∧
    DAEMON_FAILED_REPORTS st' = DAEMON_FAILED_REPORTS st.
Proof.
  intros Hfail Ho He.
  destruct (fallback_skips init [q] last st Hfail)
    as (st1 & last1 & Hrun & Hsent & Hports & Hcnt).
  eexists. split_and!.
  - rewrite Hrun. rewrite (fallback_port_fails q [] last1 st1 e); [done| |done].
    by rewrite Hsent.
  - simpl. rewrite Hsent, map_app. simpl. by rewrite <- app_assoc.
  - done.
  - done.
Qed.

(** Whatever the ports answer, the loop leaves the failure counter alone. *)
Lemma fallback_keeps_counter ports last st :
  DAEMON_FAILED_REPORTS (get_reports_fallback host ports data last st).2 =
  DAEMON_FAILED_REPORTS st.
Proof.
  revert last st. induction ports as [|q ports IH]; intros last st.
  - simpl. by destruct last.
  - destruct (report_outcome host (sent st) q data) as [e|r] eqn:Ho.
    + destruct (is_Exception (exn_type e)) eqn:He.
      * rewrite (fallback_port_fails q ports last st e Ho He). by rewrite IH.
      * simpl.
        rewrite (try_except_passed _ _ _ st e (push_sent (report_request data q) st));
          [done| |exact He].
        apply bind_Raise. by rewrite request_report_run, Ho.
    + simpl. unfold try_except.
      rewrite (bind_Return _ _ st r (push_sent (report_request data q) st))
        by (by rewrite request_report_run, Ho).
      run. unfold reorder_ports. run.
      destruct (decide (q ∈ DAEMON_PORTS st)) as [Hin|Hnin].
      * destruct (index_Some q _ Hin) as (i & -> & _). done.
      * rewrite (index_None q _ Hnin). simpl. by rewrite IH.
Qed.

End report_fetching.

Lemma get_reports_below_threshold host app_id api_key st p rest :
  DAEMON_FAILED_REPORTS st < 10 →
  DAEMON_PORTS st = p :: rest →
  get_reports host app_id api_key st =
    (outcome_result (report_outcome host (sent st) p (report_data app_id api_key)),
     push_sent (report_request (report_data app_id api_key) p) st).
Proof.
  intros Hlt Hports. unfold get_reports.
  erewrite bind_Return; [|done].
  rewrite bool_decide_true by done.
  unfold get_address, get_port. run. rewrite Hports. simpl.
  rewrite append_assoc.
  fold (report_data app_id api_key).
  rewrite request_report_run.
  by destruct (report_outcome host _ _ _).
Qed.

Lemma get_reports_at_threshold host app_id api_key st :
  (10 ≤ DAEMON_FAILED_REPORTS st)%Z →
  get_reports host app_id api_key st =
    get_reports_fallback host (DAEMON_PORTS st) (report_data app_id api_key) None st.
Proof.
  intros Hge. unfold get_reports.
  erewrite bind_Return; [|done].
  rewrite bool_decide_false by lia.
  by erewrite bind_Return.
Qed.

Lemma get_reports_keeps_counter host app_id api_key st :
  DAEMON_FAILED_REPORTS (get_reports host app_id api_key st).2 =
  DAEMON_FAILED_REPORTS st.
Proof.
  destruct (decide (DAEMON_FAILED_REPORTS st < 10)) as [Hlt|Hge].
  - destruct (DAEMON_PORTS st) as [|p rest] eqn:Hports.
    + unfold get_reports. erewrite bind_Return; [|done].
      rewrite bool_decide_true by done.
      unfold get_address, get_port. run. by rewrite Hports.
    + by rewrite (get_reports_below_threshold _ _ _ _ p rest).
  - rewrite get_reports_at_threshold by lia. apply fallback_keeps_counter.
Qed.

(** C1 (amended): for a registry that contains [p], [reorder_ports p]
    rotates the registry left to the first occurrence of [p]: [p] comes
    first, then the ports that were after it, then the ports that were
    before it, each group in its original order.  In the report-fetch
    fallback on the registry [80, 81, 82], with port 80 failing and port 81
    answering, [get_reports] returns port 81's answer and leaves the
    registry as [81, 82, 80]. *)
Theorem reorder_ports_rotates :
  (∀ st p,
     p ∈ DAEMON_PORTS st →
     ∃ before after,
       DAEMON_PORTS st = before ++ p :: after ∧
       (p ∉ before) ∧
       reorder_ports p st = (Return (), set_ports (p :: (after ++ before)) st)) ∧
  (∀ host app_id api_key st e r,
     DAEMON_PORTS st = ["80"; "81"; "82"] →
     (10 ≤ DAEMON_FAILED_REPORTS st)%Z →
     report_outcome host (sent st) "80" (report_data app_id api_key) = inl e →
     is_Exception (exn_type e) = true →
     report_outcome host
       (sent st ++ [report_request (report_data app_id api_key) "80"])
       "81" (report_data app_id api_key) = inr r →
     ∃ st',
       get_reports host app_id api_key st = (Return r, st') ∧
       DAEMON_PORTS st' = ["81"; "82"; "80"]).
Proof.
  split.
  - intros st p Hin.
    destruct (index_Some p _ Hin) as (i & Hi & Hl & Hbefore).
    exists (take i (DAEMON_PORTS st)), (drop (S i) (DAEMON_PORTS st)).
    split_and!; [|done|].
    + by rewrite <- (drop_S _ _ _ Hl), take_drop.
    + rewrite (reorder_ports_found st p i Hi).
      by rewrite (drop_S _ _ _ Hl).
  - intros host app_id api_key st e r Hports Hge H80 He H81.
    rewrite get_reports_at_threshold by done. rewrite Hports.
    destruct (fallback_first_answer host (report_data app_id api_key)
                ["80"] "81" ["82"] None st r) as (st' & i & Hrun & _ & Hi & Hp & _).
    + intros [|k] q Hk; [|by destruct k].
      injection Hk as <-. exists e. simpl. by rewrite app_nil_r.
    + done.
    + rewrite Hports. set_solver.
    + exists st'. split; [done|].
      rewrite Hp. rewrite Hports in Hi |- *.
      vm_compute in Hi. injection Hi as <-. done.
Qed.

Lemma reorder_ports_rotates_witness :
  (∃ before after,
     ["80"; "81"; "82"] = before ++ "81" :: after ∧
     ("81" ∉ before) ∧
     reorder_ports "81" (Demo.state ["80"; "81"; "82"] 10 false) =
       (Return (),
        set_ports ("81" :: (after ++ before)) (Demo.state ["80"; "81"; "82"] 10 false))) ∧
  (∃ st',
     get_reports Demo.host (JInt 1000) "KEY" (Demo.state ["80"; "81"; "82"] 10 false) =
       (Return (JDict (<["tasks" := JList []]> ∅)), st') ∧
     DAEMON_PORTS st' = ["81"; "82"; "80"]).
Proof.
  destruct reorder_ports_rotates as [Hrot Hfetch]. split.
  - apply (Hrot (Demo.state ["80"; "81"; "82"] 10 false) "81").
    simpl. set_solver.
  - apply (Hfetch Demo.host (JInt 1000) "KEY"
             (Demo.state ["80"; "81"; "82"] 10 false) Demo.refused).
    + reflexivity.
    + simpl. lia.
    + reflexivity.
    + reflexivity.
    + reflexivity.
Defined.

(** The remaining ports are not the registry with [p] taken out: the ports
    that were before [p] go behind those that were after it. *)
Lemma reorder_ports_moves_the_front_back :
  DAEMON_PORTS (reorder_ports "81" (Demo.state ["80"; "81"; "82"] 10 false)).2
    = ["81"; "82"; "80"] ∧
  DAEMON_PORTS (reorder_ports "81" (Demo.state ["80"; "81"; "82"] 10 false)).2
    ≠ "81" :: without "81" ["80"; "81"; "82"] ∧
  (get_reports Demo.host (JInt 1000) "KEY" (Demo.state ["80"; "81"; "82"] 10 false)).1
    = Return (JDict (<["tasks" := JList []]> ∅)) ∧
  DAEMON_PORTS
    (get_reports Demo.host (JInt 1000) "KEY" (Demo.state ["80"; "81"; "82"] 10 false)).2
    ≠ ["81"; "80"; "82"].
Proof.
  split_and!.
  - reflexivity.
  - vm_compute. intros H. discriminate H.
  - reflexivity.
  - vm_compute. intros H. discriminate H.
Qed.

(** C2 (amended): [get_reports] reads the failure counter and never writes
    it.  While the counter is below 10, the default port alone is asked: its
    answer is returned, its failure is raised to the caller, and the counter
    and the registry stay as they were.  With the counter at 10 or more the
    registry is walked in its order: the ports that fail are passed over,
    the first one that answers is moved to the front by [reorder_ports] and
    its answer returned without asking the ports after it; when every port
    of the registry fails, the error of the last one is raised. *)
Theorem get_reports_protocol (host : Host) (app_id : json) (api_key : string)
    (st : State) :
  DAEMON_FAILED_REPORTS (get_reports host app_id api_key st).2 =
    DAEMON_FAILED_REPORTS st ∧
  ((DAEMON_FAILED_REPORTS st < 10)%Z →
   ∀ p rest,
     DAEMON_PORTS st = p :: rest →
     ∃ st',
       get_reports host app_id api_key st =
         (outcome_result (report_outcome host (sent st) p (report_data app_id api_key)),
          st') ∧
       sent st' = sent st ++ [report_request (report_data app_id api_key) p] ∧
       DAEMON_PORTS st' = DAEMON_PORTS st) ∧
  ((10 ≤ DAEMON_FAILED_REPORTS st)%Z →
   ∀ pre p post r,
     DAEMON_PORTS st = pre ++ p :: post →
     all_fail host (report_data app_id api_key) st pre →
     report_outcome host
       (sent st ++ map (report_request (report_data app_id api_key)) pre)
       p (report_data app_id api_key) = inr r →
     ∃ st' i,
       get_reports host app_id api_key st = (Return r, st') ∧
       sent st' =
         sent st ++ map (report_request (report_data app_id api_key)) (pre ++ [p]) ∧
       index p (DAEMON_PORTS st) = inr i ∧
       DAEMON_PORTS st' = drop i (DAEMON_PORTS st) ++ take i (DAEMON_PORTS st) ∧
       head (DAEMON_PORTS st') = Some p) ∧
  ((10 ≤ DAEMON_FAILED_REPORTS st)%Z →
   ∀ init q e,
     DAEMON_PORTS st = init ++ [q] →
     all_fail host (report_data app_id api_key) st init →
     report_outcome host
       (sent st ++ map (report_request (report_data app_id api_key)) init)
       q (report_data app_id api_key) = inl e →
     is_Exception (exn_type e) = true →
     ∃ st',
       get_reports host app_id api_key st = (Raise e, st') ∧
       sent st' =
         sent st ++ map (report_request (report_data app_id api_key)) (DAEMON_PORTS st) ∧
       DAEMON_PORTS st' = DAEMON_PORTS st).
Proof.
  split_and!.
  - apply get_reports_keeps_counter.
  - intros Hlt p rest Hports. eexists. split_and!.
    + by apply (get_reports_below_threshold host app_id api_key st p rest).
    + done.
    + done.
  - intros Hge pre p post r Hports Hfail Ho.
    destruct (fallback_first_answer host (report_data app_id api_key)
                pre p post None st r Hfail Ho) as (st' & i & Hrun & Hsent & Hi & Hp & _).
    { rewrite Hports. set_solver. }
    exists st', i. split_and!; try done.
    + rewrite get_reports_at_threshold by done. by rewrite Hports.
    + rewrite Hp.
      destruct (index_Some p (DAEMON_PORTS st)) as (j & Hj & Hl & _).
      { rewrite Hports. set_solver. }
      rewrite Hi in Hj. injection Hj as <-.
      by rewrite (drop_S _ _ _ Hl).
  - intros Hge init q e Hports Hfail Ho He.
    destruct (fallback_every_port_fails host (report_data app_id api_key)
                init q None st e Hfail Ho He) as (st' & Hrun & Hsent & Hp & _).
    exists st'. split_and!; try done.
    + rewrite get_reports_at_threshold by done. by rewrite Hports.
    + by rewrite Hports.
Qed.

Lemma get_reports_protocol_witness :
  (∃ st',
     get_reports Demo.host (JInt 1000) "KEY" (Demo.state ["80"; "81"; "82"] 9 false) =
       (Raise Demo.refused, st') ∧
     sent st' = [report_request (report_data (JInt 1000) "KEY") "80"] ∧
     DAEMON_PORTS st' = ["80"; "81"; "82"]) ∧
  (∃ st' i,
     get_reports Demo.host (JInt 1000) "KEY" (Demo.state ["80"; "81"; "82"] 10 false) =
       (Return (JDict (<["tasks" := JList []]> ∅)), st') ∧
     sent st' = map (report_request (report_data (JInt 1000) "KEY")) ["80"; "81"] ∧
     index "81" ["80"; "81"; "82"] = inr i ∧
     DAEMON_PORTS st' = drop i ["80"; "81"; "82"] ++ take i ["80"; "81"; "82"] ∧
     head (DAEMON_PORTS st') = Some "81") ∧
  (∃ st',
     get_reports Demo.host (JInt 1000) "KEY" (Demo.state ["80"; "82"] 10 false) =
       (Raise Demo.not_json, st') ∧
     sent st' = map (report_request (report_data (JInt 1000) "KEY")) ["80"; "82"] ∧
     DAEMON_PORTS st' = ["80"; "82"]).
Proof.
  split_and!.
  - destruct (get_reports_protocol Demo.host (JInt 1000) "KEY"
                (Demo.state ["80"; "81"; "82"] 9 false)) as (_ & Hbelow & _ & _).
    apply (Hbelow ltac:(simpl; lia) "80" ["81"; "82"] eq_refl).
  - destruct (get_reports_protocol Demo.host (JInt 1000) "KEY"
                (Demo.state ["80"; "81"; "82"] 10 false)) as (_ & _ & Hfirst & _).
    apply (Hfirst ltac:(simpl; lia) ["80"] "81" ["82"]
             (JDict (<["tasks" := JList []]> ∅)) eq_refl).
    + intros [|k] q Hk; [|by destruct k].
      injection Hk as <-. exists Demo.refused. split; reflexivity.
    + reflexivity.
  - destruct (get_reports_protocol Demo.host (JInt 1000) "KEY"
                (Demo.state ["80"; "82"] 10 false)) as (_ & _ & _ & Hall).
    apply (Hall ltac:(simpl; lia) ["80"] "82" Demo.not_json eq_refl).
    + intros [|k] q Hk; [|by destruct k].
      injection Hk as <-. exists Demo.refused. split; reflexivity.
    + reflexivity.
    + reflexivity.
Defined.

(** A failed fetch below the threshold raises, and the counter is still 9. *)
Lemma get_reports_does_not_count :
  (get_reports Demo.host (JInt 1000) "KEY" (Demo.state ["80"; "81"; "82"] 9 false)).1
    = Raise Demo.refused ∧
  DAEMON_FAILED_REPORTS
    (get_reports Demo.host (JInt 1000) "KEY" (Demo.state ["80"; "81"; "82"] 9 false)).2
    ≠ (DAEMON_FAILED_REPORTS (Demo.state ["80"; "81"; "82"] 9 false) + 1)%Z.
Proof.
  split.
  - reflexivity.
  - vm_compute. intros H. discriminate H.
Qed.

(** ** Request gateway *)

Ltac one_request Hports :=
  unfold sends, session_get, session_post, session_request,
    get_address, get_port, bk_logger;
  run; rewrite Hports; simpl;
  repeat match goal with
         | |- context [http ?h ?hist ?r] => destruct (http h hist r); simpl
         | |- context [resp_json ?r] => destruct (resp_json r); simpl
         | |- context [subscript ?j ?k] => destruct (subscript j k); simpl
         end;
  eexists; (split; [reflexivity|]).

Section gateway.
Variable host : Host.
Variable st : State.
Variables (p : string) (rest : list string).
Hypothesis Hports : DAEMON_PORTS st = p :: rest.

Lemma search_asset_bounded data : sends (search_asset host data) st bounded.
Proof. unfold search_asset. one_request Hports; by split. Qed.

Lemma download_asset_bounded data : sends (download_asset host data) st bounded.
Proof. unfold download_asset. one_request Hports; by split. Qed.

Lemma upload_asset_bounded u e s : sends (upload_asset host u e s) st bounded.
Proof. unfold upload_asset. one_request Hports; by split. Qed.

Lemma kill_download_bounded t : sends (kill_download host t) st bounded.
Proof. unfold kill_download. one_request Hports; by split. Qed.

Lemma send_code_verifier_bounded c : sends (send_code_verifier host c) st bounded.
Proof. unfold send_code_verifier. one_request Hports; by split. Qed.

Lemma refresh_token_bounded t : sends (refresh_token host t) st bounded.
Proof. unfold refresh_token. one_request Hports; by split. Qed.

Lemma report_blender_quit_bounded : sends (report_blender_quit host) st bounded.
Proof. unfold report_blender_quit. one_request Hports; by split. Qed.

Lemma kill_daemon_server_bounded : sends (kill_daemon_server host) st bounded.
Proof. unfold kill_daemon_server. one_request Hports; by split. Qed.

Lemma fetch_gravatar_image_unbounded d :
  sends (fetch_gravatar_image host d) st unbounded.
Proof. unfold fetch_gravatar_image. one_request Hports; by split. Qed.

Lemma get_user_profile_unbounded k : sends (get_user_profile host k) st unbounded.
Proof. unfold get_user_profile. one_request Hports; by split. Qed.

Lemma get_comments_unbounded a k : sends (get_comments host a k) st unbounded.
Proof. unfold get_comments. one_request Hports; by split. Qed.

Lemma create_comment_unbounded a c k r :
  sends (create_comment host a c k r) st unbounded.
Proof. unfold create_comment. one_request Hports; by split. Qed.

Lemma feedback_comment_unbounded a c k f :
  sends (feedback_comment host a c k f) st unbounded.
Proof. unfold feedback_comment. one_request Hports; by split. Qed.

Lemma mark_comment_private_unbounded a c k f :
  sends (mark_comment_private host a c k f) st unbounded.
Proof. unfold mark_comment_private. one_request Hports; by split. Qed.

Lemma mark_notification_read_unbounded n :
  sends (mark_notification_read host n) st unbounded.
Proof. unfold mark_notification_read. one_request Hports; by split. Qed.

Lemma report_usages_unbounded r : sends (report_usages host r) st unbounded.
Proof. unfold report_usages. one_request Hports; by split. Qed.

Lemma get_download_url_unbounded a s k :
  sends (get_download_url host a s k) st unbounded.
Proof. unfold get_download_url. one_request Hports; by split. Qed.

End gateway.

(** C3: the comment, notification, profile, usage-report and download-url
    requests are issued without [timeout] and without [proxies], unlike the
    search, download, upload, kill, verifier, token, quit and shutdown
    requests next to them: with a registry that has a default port, each of
    these nine operations sends one request that carries neither keyword. *)
Theorem feature_requests_left_unbounded (host : Host) (st : State)
    (p : string) (rest : list string) :
  DAEMON_PORTS st = p :: rest →
  (∀ author_data, sends (fetch_gravatar_image host author_data) st unbounded) ∧
  (∀ api_key, sends (get_user_profile host api_key) st unbounded) ∧
  (∀ asset_id api_key, sends (get_comments host asset_id api_key) st unbounded) ∧
  (∀ asset_id comment_text api_key reply_to_id,
     sends (create_comment host asset_id comment_text api_key reply_to_id) st unbounded) ∧
  (∀ asset_id comment_id api_key flag,
     sends (feedback_comment host asset_id comment_id api_key flag) st unbounded) ∧
  (∀ asset_id comment_id api_key is_private,
     sends (mark_comment_private host asset_id comment_id api_key is_private) st
       unbounded) ∧
  (∀ notification_id, sends (mark_notification_read host notification_id) st unbounded) ∧
  (∀ report, sends (report_usages host report) st unbounded) ∧
  (∀ asset_data scene_id api_key,
     sends (get_download_url host asset_data scene_id api_key) st unbounded).
Proof.
  intros Hports. split_and!; intros.
  - by eapply fetch_gravatar_image_unbounded.
  - by eapply get_user_profile_unbounded.
  - by eapply get_comments_unbounded.
  - by eapply create_comment_unbounded.
  - by eapply feedback_comment_unbounded.
  - by eapply mark_comment_private_unbounded.
  - by eapply mark_notification_read_unbounded.
  - by eapply report_usages_unbounded.
  - by eapply get_download_url_unbounded.
Qed.

Lemma feature_requests_left_unbounded_witness :
  sends (get_comments Demo.host (JStr "asset") (JStr "KEY"))
    (Demo.state ["62485"] 0 false) unbounded.
Proof.
  destruct (feature_requests_left_unbounded Demo.host (Demo.state ["62485"] 0 false)
              "62485" [] eq_refl) as (_ & _ & Hcomments & _).
  apply Hcomments.
Defined.

(** The operations that do pass [timeout=TIMEOUT, proxies={}]. *)
Lemma feature_requests_bounded (host : Host) (st : State)
    (p : string) (rest : list string) :
  DAEMON_PORTS st = p :: rest →
  (∀ data, sends (search_asset host data) st bounded) ∧
  (∀ data, sends (download_asset host data) st bounded) ∧
  (∀ upload_data export_data upload_set,
     sends (upload_asset host upload_data export_data upload_set) st bounded) ∧
  (∀ task_id, sends (kill_download host task_id) st bounded) ∧
  (∀ code_verifier, sends (send_code_verifier host code_verifier) st bounded) ∧
  (∀ token, sends (refresh_token host token) st bounded) ∧
  sends (report_blender_quit host) st bounded ∧
  sends (kill_daemon_server host) st bounded.
Proof.
  intros Hports. split_and!; intros.
  - by eapply search_asset_bounded.
  - by eapply download_asset_bounded.
  - by eapply upload_asset_bounded.
  - by eapply kill_download_bounded.
  - by eapply send_code_verifier_bounded.
  - by eapply refresh_token_bounded.
  - by eapply report_blender_quit_bounded.
  - by eapply kill_daemon_server_bounded.
Qed.

Ltac has_app_id := eexists; split; [reflexivity|by simplify_map_eq].





(** ** Substrings *)

Lemma prefix_append (n a b : string) :
  String.prefix n a = true → String.prefix n (a +:+ b) = true.
Proof.
  revert a. induction n as [|c n IH]; intros a H.
  - by destruct (a +:+ b).
  - destruct a as [|c' a]; [done|].
    change (String c' a +:+ b) with (String c' (a +:+ b)).
    simpl in *. destruct (Ascii.ascii_dec c c'); [|done]. by apply IH.
Qed.

Lemma prefix_refl (n : string) : String.prefix n n = true.
Proof.
  induction n as [|c n IH]; [done|].
  simpl. by destruct (Ascii.ascii_dec c c).
Qed.

Lemma contains_append_l (n a b : string) :
  contains n a = true → contains n (a +:+ b) = true.
Proof.
  induction a as [|c a IH]; intros H.
  - simpl in H. rewrite orb_false_r in H.
    destruct n; [|done]. change (EmptyString +:+ b) with b. by destruct b.
  - change (String c a +:+ b) with (String c (a +:+ b)).
    simpl in *. apply orb_true_iff in H as [H|H]; apply orb_true_iff.
    + left. by apply (prefix_append n (String c a) b).
    + right. by apply IH.
Qed.

Lemma contains_append_r (n a b : string) :
  contains n b = true → contains n (a +:+ b) = true.
Proof.
  intros H. induction a as [|c a IH]; [done|].
  change (String c a +:+ b) with (String c (a +:+ b)).
  simpl. rewrite IH. apply orb_true_r.
Qed.

Lemma contains_self (n : string) : contains n n = true.
Proof.
  destruct n as [|c n]; [done|].
  change (String.prefix (String c n) (String c n) || contains (String c n) n = true).
  by rewrite prefix_refl.
Qed.

Lemma contains_suffix (n a : string) : contains n (a +:+ n) = true.
Proof. apply contains_append_r, contains_self. Qed.

Lemma contains_middle (n a b : string) : contains n (a +:+ n +:+ b) = true.
Proof. apply contains_append_r, contains_append_l, contains_self. Qed.

(** ** Exit-code classifier *)

(** C5: with a daemon process at hand, a poll that yields no exit code
    makes [check_daemon_exit_code] return no code and the still-running
    text; a poll that yields a code returns that code with the message of
    its row of the table — each of the nine rows 100, 101, 102, 111, 113,
    114, 121, 148 and 149 — which for 111 contains "firewall" and for 149
    contains "in use"; for a code outside the table (37 is one) the message
    is the generic "unexpected Exception" message with the log path. *)
Theorem check_daemon_exit_code_classifies (host : Host) (st : State)
    (proc : Process) (p : string) (rest : list string) :
  daemon_process st = Some proc →
  DAEMON_PORTS st = p :: rest →
  (process_poll host proc = None →
   check_daemon_exit_code host st = (Return (None, "Daemon process is running."), st)) ∧
  (∀ code,
     process_poll host proc = Some code →
     ∃ message,
       check_daemon_exit_code host st = (Return (Some code, message), st) ∧
       (code = 111 → contains "firewall" message = true) ∧
       (code = 149 → contains "in use" message = true) ∧
       (code ∉ [100; 101; 102; 111; 113; 114; 121; 148; 149] →
        message =
          "unexpected Exception. Please report a bug and paste content of log " +:+
          get_daemon_directory_path host +:+ "/daemon-" +:+ p +:+ ".log" ∧
        contains "unexpected" message = true) ∧
       (code = 100 →
        message =
          "unexpected OSError. Please report a bug and paste content of log " +:+
          get_daemon_directory_path host +:+ "/daemon-" +:+ p +:+ ".log") ∧
       (code = 101 →
        message =
          "failed to import AIOHTTP. Try to delete " +:+ dependencies_path host +:+
          " and restart Blender.") ∧
       (code = 102 →
        message =
          "failed to import CERTIFI. Try to delete " +:+ dependencies_path host +:+
          " and restart Blender.") ∧
       (code = 111 →
        message =
          "unable to bind any socket. Check your antivirus/firewall and unblock BlenderKit.") ∧
       (code = 113 →
        message =
          "cannot open port. Check your antivirus/firewall and unblock BlenderKit." ∧
        contains "firewall" message = true) ∧
       (code = 114 →
        message =
          "invalid pointer address. Please report a bug and paste content of log " +:+
          get_daemon_directory_path host +:+ "/daemon-" +:+ p +:+ ".log") ∧
       (code = 121 →
        message =
          "semaphore timeout exceeded. In preferences set IP version to " +:+
          dquote +:+ "Use only IPv4" +:+ dquote +:+ "." ∧
        contains "IPv4" message = true) ∧
       (code = 148 →
        message =
          "address already in use. Select different daemon port in preferences." ∧
        contains "in use" message = true) ∧
       (code = 149 →
        message =
          "address already in use. Select different daemon port in preferences.")).
Proof.
  intros Hproc Hports. split.
  - intros Hpoll. unfold check_daemon_exit_code. run. by rewrite Hproc, Hpoll.
  - intros code Hpoll. eexists. split; [|split_and!].
    + unfold check_daemon_exit_code, get_port. run.
      rewrite Hproc, Hpoll. simpl. rewrite Hports. reflexivity.
    + intros ->. reflexivity.
    + intros ->. reflexivity.
    + intros Hnot.
      repeat (rewrite bool_decide_false; [|intros ->; apply Hnot; set_solver]).
      split; [done|]. by apply contains_append_l.
    + intros ->. reflexivity.
    + intros ->. reflexivity.
    + intros ->. reflexivity.
    + intros ->. reflexivity.
    + intros ->. split; reflexivity.
    + intros ->. reflexivity.
    + intros ->. split; reflexivity.
    + intros ->. split; reflexivity.
    + intros ->. reflexivity.
Qed.

Lemma check_daemon_exit_code_classifies_witness :
  check_daemon_exit_code Demo.host
      (set_process Demo.child (Demo.state ["62485"] 0 false)) =
    (Return (None, "Daemon process is running."),
     set_process Demo.child (Demo.state ["62485"] 0 false)) ∧
  (∃ message,
     check_daemon_exit_code
         (Demo.machine "Linux" (Demo.python 0) None (λ c, inr (Demo.proc c)) (Some 37))
         (set_process Demo.child (Demo.state ["62485"] 0 false)) =
       (Return (Some 37, message),
        set_process Demo.child (Demo.state ["62485"] 0 false)) ∧
     contains "unexpected" message = true) ∧
  check_daemon_exit_code
      (Demo.machine "Linux" (Demo.python 0) None (λ c, inr (Demo.proc c)) (Some 113))
      (set_process Demo.child (Demo.state ["62485"] 0 false)) =
    (Return (Some 113,
             "cannot open port. Check your antivirus/firewall and unblock BlenderKit."),
     set_process Demo.child (Demo.state ["62485"] 0 false)).
Proof.
  split_and!.
  - by apply (check_daemon_exit_code_classifies Demo.host
                (set_process Demo.child (Demo.state ["62485"] 0 false))
                Demo.child "62485" [] eq_refl eq_refl).
  - destruct (check_daemon_exit_code_classifies
                (Demo.machine "Linux" (Demo.python 0) None (λ c, inr (Demo.proc c)) (Some 37))
                (set_process Demo.child (Demo.state ["62485"] 0 false))
                Demo.child "62485" [] eq_refl eq_refl) as [_ Hcode].
    destruct (Hcode 37 eq_refl) as (message & Hrun & _ & _ & Hother & _).
    exists message. split; [done|]. apply Hother.
    rewrite !elem_of_cons, elem_of_nil. intros H.
    repeat (destruct H as [H|H]; [discriminate H|]). done.
  - destruct (check_daemon_exit_code_classifies
                (Demo.machine "Linux" (Demo.python 0) None (λ c, inr (Demo.proc c)) (Some 113))
                (set_process Demo.child (Demo.state ["62485"] 0 false))
                Demo.child "62485" [] eq_refl eq_refl) as [_ Hcode].
    destruct (Hcode 113 eq_refl)
      as (message & Hrun & _ & _ & _ & _ & _ & _ & _ & H113 & _).
    destruct (H113 eq_refl) as [Hmessage _]. by rewrite Hrun, Hmessage.
Defined.

(** ** Health probe *)

(** C6: the probe answers [(true, message)] exactly when the response has
    status 200, and the message then contains the response text, the pid
    the daemon reports; for another status it answers [(false, message)]
    with the status code in the message; when the request raises
    [requests.exceptions.ConnectionError] it answers [(false, message)] with
    the error's text in the message and raises nothing; any other exception
    of the request is raised to the caller. *)
Theorem daemon_is_alive_verdict (host : Host) (st : State)
    (p : string) (rest : list string) :
  DAEMON_PORTS st = p :: rest →
  (∀ resp,
     http host (sent st) (probe_request p) = inr resp →
     status_code resp = 200 →
     ∃ message,
       daemon_is_alive host st = (Return (true, message), push_sent (probe_request p) st) ∧
       contains (text resp) message = true) ∧
  (∀ resp,
     http host (sent st) (probe_request p) = inr resp →
     status_code resp ≠ 200 →
     ∃ message,
       daemon_is_alive host st = (Return (false, message), push_sent (probe_request p) st) ∧
       contains (str_of_int (status_code resp)) message = true) ∧
  (∀ err,
     http host (sent st) (probe_request p) = inl err →
     is_requests_ConnectionError (exn_type err) = true →
     ∃ message,
       daemon_is_alive host st = (Return (false, message), push_sent (probe_request p) st) ∧
       contains (exn_str err) message = true) ∧
  (∀ err,
     http host (sent st) (probe_request p) = inl err →
     is_requests_ConnectionError (exn_type err) = false →
     daemon_is_alive host st = (Raise err, push_sent (probe_request p) st)) ∧
  (∀ message st',
     daemon_is_alive host st = (Return (true, message), st') →
     ∃ resp,
       http host (sent st) (probe_request p) = inr resp ∧ status_code resp = 200).
Proof.
  intros Hports.
  assert (Hrun : daemon_is_alive host st =
    match http host (sent st) (probe_request p) with
    | inr resp =>
        (Return (if bool_decide (status_code resp ≠ 200)
                 then (false, "Server response not 200: " +:+ str_of_int (status_code resp))
                 else (true, "Server alive, PID: " +:+ text resp)),
         push_sent (probe_request p) st)
    | inl err =>
        if is_requests_ConnectionError (exn_type err)
        then (Return (false, "EXCEPTION OCCURED:" +:+ dquote +:+ ", " +:+ exn_str err +:+
                             ", " +:+ type_repr (exn_type err)),
              push_sent (probe_request p) st)
        else (Raise err, push_sent (probe_request p) st)
    end).
  { unfold daemon_is_alive, get_address, get_port, try_except, session_get,
      session_request.
    run. rewrite Hports. simpl. fold (probe_request p).
    destruct (http host (sent st) (probe_request p)) as [err|resp]; simpl; [done|].
    by case_bool_decide. }
  rewrite Hrun. split_and!.
  - intros resp -> H200. eexists. rewrite bool_decide_false by (by intros []).
    split; [done|]. apply contains_suffix.
  - intros resp -> Hnot. eexists. rewrite bool_decide_true by done.
    split; [done|]. apply contains_suffix.
  - intros err -> ->. eexists. split; [done|].
    apply contains_append_r, contains_append_r, (contains_middle _ ", ").
  - by intros err -> ->.
  - intros message st' H.
    destruct (http host (sent st) (probe_request p)) as [err|resp].
    + by destruct (is_requests_ConnectionError (exn_type err)).
    + exists resp. split; [done|].
      case_bool_decide as Hs; [done|].
      destruct (decide (status_code resp = 200)) as [H200|Hne]; [done|]. by destruct Hs.
Qed.

Lemma daemon_is_alive_verdict_witness :
  (∃ message,
     daemon_is_alive Demo.host (Demo.state ["81"] 0 false) =
       (Return (true, message), push_sent (probe_request "81") (Demo.state ["81"] 0 false)) ∧
     contains "4242" message = true) ∧
  (∃ message,
     daemon_is_alive Demo.host (Demo.state ["82"] 0 false) =
       (Return (false, message), push_sent (probe_request "82") (Demo.state ["82"] 0 false)) ∧
     contains "503" message = true) ∧
  (∃ message,
     daemon_is_alive Demo.host (Demo.state ["11111"] 0 false) =
       (Return (false, message),
        push_sent (probe_request "11111") (Demo.state ["11111"] 0 false)) ∧
     contains "Connection refused" message = true) ∧
  daemon_is_alive Demo.host (Demo.state ["83"] 0 false) =
    (Raise Demo.timed_out, push_sent (probe_request "83") (Demo.state ["83"] 0 false)).
Proof.
  split_and!.
  - destruct (daemon_is_alive_verdict Demo.host (Demo.state ["81"] 0 false)
                "81" [] eq_refl) as (Halive & _).
    exact (Halive _ eq_refl eq_refl).
  - destruct (daemon_is_alive_verdict Demo.host (Demo.state ["82"] 0 false)
                "82" [] eq_refl) as (_ & Hstatus & _).
    refine (Hstatus _ eq_refl _). simpl. lia.
  - destruct (daemon_is_alive_verdict Demo.host (Demo.state ["11111"] 0 false)
                "11111" [] eq_refl) as (_ & _ & Hrefused & _).
    exact (Hrefused _ eq_refl eq_refl).
  - destruct (daemon_is_alive_verdict Demo.host (Demo.state ["83"] 0 false)
                "83" [] eq_refl) as (_ & _ & _ & Hother & _).
    exact (Hother _ eq_refl eq_refl).
Defined.

(** ** Status notifier *)

Lemma eq_int_true (v : json) (n : Z) : eq_int v n = true ↔ v = JInt n.
Proof.
  destruct v; simpl; try (split; [done|discriminate]).
  rewrite bool_decide_eq_true. split; [by intros ->|by intros [= ->]].
Qed.

Lemma eq_int_false (v : json) (n : Z) : eq_int v n = false ↔ v ≠ JInt n.
Proof.
  rewrite <- eq_int_true. destruct (eq_int v n); split; done.
Qed.

Lemma handle_daemon_status_task_run (host : Host) (task : gmap string json)
    (status : json) (st : State) :
  task !! "online_status" = Some status →
  handle_daemon_status_task host task st =
    (Return (),
     if eq_int status 200 then
       if DAEMON_ONLINE st then st
       else set_online true (set_logo "logo" (push_report (connected_notice host st) st))
     else
       if DAEMON_ONLINE st then
         set_online false (set_logo "logo_offline"
           (push_report (if eq_int status 429 then rate_limit_notice host st
                         else disconnected_notice host st) st))
       else st).
Proof.
  intros Hstatus. unfold handle_daemon_status_task, dict_item, add_report.
  run. rewrite Hstatus. simpl.
  destruct (eq_int status 200); simpl; destruct (DAEMON_ONLINE st); simpl; try done.
  by destruct (eq_int status 429).
Qed.

(** C7: a notice goes out only when the state changes.  Offline and a probe
    with status 200: one connected notice, and the flag becomes true.
    Online and a probe with another status: one disconnected notice — the
    rate-limit notice when the status is 429 — and the flag becomes false.
    A probe that agrees with the flag changes nothing, so the second of two
    probes that report the same state emits no notice. *)
Theorem handle_daemon_status_task_notifies (host : Host) (task : gmap string json)
    (status : json) (st : State) :
  task !! "online_status" = Some status →
  (status = JInt 200 → DAEMON_ONLINE st = false →
   ∃ st',
     handle_daemon_status_task host task st = (Return (), st') ∧
     reports st' = reports st ++ [connected_notice host st] ∧
     DAEMON_ONLINE st' = true) ∧
  (status ≠ JInt 200 → status ≠ JInt 429 → DAEMON_ONLINE st = true →
   ∃ st',
     handle_daemon_status_task host task st = (Return (), st') ∧
     reports st' = reports st ++ [disconnected_notice host st] ∧
     DAEMON_ONLINE st' = false) ∧
  (status = JInt 429 → DAEMON_ONLINE st = true →
   ∃ st',
     handle_daemon_status_task host task st = (Return (), st') ∧
     reports st' = reports st ++ [rate_limit_notice host st] ∧
     rate_limit_notice host st ≠ disconnected_notice host st ∧
     DAEMON_ONLINE st' = false) ∧
  (status = JInt 200 → DAEMON_ONLINE st = true →
   handle_daemon_status_task host task st = (Return (), st)) ∧
  (status ≠ JInt 200 → DAEMON_ONLINE st = false →
   handle_daemon_status_task host task st = (Return (), st)) ∧
  (∀ task2 status2,
     task2 !! "online_status" = Some status2 →
     (status2 = JInt 200 ↔ status = JInt 200) →
     reports (handle_daemon_status_task host task2
                (handle_daemon_status_task host task st).2).2 =
     reports (handle_daemon_status_task host task st).2).
Proof.
  intros Hstatus.
  rewrite (handle_daemon_status_task_run host task status st Hstatus).
  split_and!.
  - intros -> Hoff. eexists. simpl. rewrite Hoff. done.
  - intros Hne H429 Hon. apply eq_int_false in Hne, H429.
    eexists. rewrite Hne, H429, Hon. done.
  - intros -> Hon. eexists. simpl. rewrite Hon.
    split_and!; done.
  - intros -> Hon. simpl. by rewrite Hon.
  - intros Hne Hoff. apply eq_int_false in Hne. by rewrite Hne, Hoff.
  - intros task2 status2 Hstatus2 Hsame.
    rewrite (handle_daemon_status_task_run host task2 status2 _ Hstatus2). simpl.
    assert (eq_int status2 200 = eq_int status 200) as ->.
    { destruct (eq_int status 200) eqn:E.
      - apply eq_int_true. apply Hsame. by apply eq_int_true.
      - apply eq_int_false. intros H. apply Hsame in H.
        apply eq_int_false in E. done. }
    destruct (eq_int status 200); destruct (DAEMON_ONLINE st) eqn:Hon;
      simpl; rewrite ?Hon; done.
Qed.

Lemma handle_daemon_status_task_notifies_witness :
  (∃ st',
     handle_daemon_status_task Demo.host (Demo.status_task 200)
       (Demo.state ["62485"] 0 false) = (Return (), st') ∧
     reports st' =
       [connected_notice Demo.host (Demo.state ["62485"] 0 false)] ∧
     DAEMON_ONLINE st' = true) ∧
  (∃ st',
     handle_daemon_status_task Demo.host (Demo.status_task 429)
       (Demo.state ["62485"] 0 true) = (Return (), st') ∧
     reports st' = [rate_limit_notice Demo.host (Demo.state ["62485"] 0 true)] ∧
     rate_limit_notice Demo.host (Demo.state ["62485"] 0 true) ≠
       disconnected_notice Demo.host (Demo.state ["62485"] 0 true) ∧
     DAEMON_ONLINE st' = false) ∧
  reports (handle_daemon_status_task Demo.host (Demo.status_task 200)
             (handle_daemon_status_task Demo.host (Demo.status_task 200)
                (Demo.state ["62485"] 0 false)).2).2 =
  reports (handle_daemon_status_task Demo.host (Demo.status_task 200)
             (Demo.state ["62485"] 0 false)).2.
Proof.
  split_and!.
  - destruct (handle_daemon_status_task_notifies Demo.host
                (Demo.status_task 200) (JInt 200)
                (Demo.state ["62485"] 0 false) eq_refl) as (Hconnect & _).
    exact (Hconnect eq_refl eq_refl).
  - destruct (handle_daemon_status_task_notifies Demo.host
                (Demo.status_task 429) (JInt 429)
                (Demo.state ["62485"] 0 true) eq_refl) as (_ & _ & Hlimit & _).
    exact (Hlimit eq_refl eq_refl).
  - destruct (handle_daemon_status_task_notifies Demo.host
                (Demo.status_task 200) (JInt 200)
                (Demo.state ["62485"] 0 false) eq_refl) as (_ & _ & _ & _ & _ & Hagain).
    exact (Hagain (Demo.status_task 200) (JInt 200) eq_refl
             (conj (λ _, eq_refl) (λ _, eq_refl))).
Defined.

(** ** Process launcher *)

Lemma spawn_failed_run host daemon_dir e st :
  spawn_failed host daemon_dir e st =
    (Raise e, push_report (failure_notice host daemon_dir e) st).
Proof.
  unfold spawn_failed, failure_notice, add_report. run.
  destruct (is_PermissionError (exn_type e)); [done|].
  destruct (is_OSError (exn_type e)); [|done].
  repeat case_bool_decide; simpl; done.
Qed.

Section launcher.
Variable host : Host.
Variables (st : State) (p : string) (rest : list string).
Variables (env : gmap string string) (flags : Z) (check : CompletedProcess).
Hypothesis Hports : DAEMON_PORTS st = p :: rest.
Hypothesis Henv : launch_env host = inr (env, flags).
Hypothesis Hcheck :
  subprocess_run host [sys_executable host; "--version"] env = inr check.

Lemma start_daemon_server_run :
  start_daemon_server host st =
    match spawn host (log_path_of host p) (daemon_path_of host) env flags
            (after_check host check env st) with
    | (Return _, st1) => report_launch (log_path_of host p) check st1
    | (Raise e, st1) =>
        if is_Exception (exn_type e)
        then (Raise e,
              push_report (failure_notice host (get_daemon_directory_path host) e) st1)
        else (Raise e, st1)
    end.
Proof.
  unfold start_daemon_server, get_port, try_except. run.
  rewrite Hports. simpl. rewrite Henv. simpl. rewrite Hcheck. simpl.
  fold (log_path_of host p). fold (daemon_path_of host).
  unfold after_check, bk_logger. run.
  case_bool_decide; simpl.
  - destruct (spawn _ _ _ _ _ _) as [[[]|e] st1]; [done|].
    destruct (is_Exception (exn_type e)); [|done].
    by rewrite spawn_failed_run.
  - destruct (spawn _ _ _ _ _ _) as [[[]|e] st1]; [done|].
    destruct (is_Exception (exn_type e)); [|done].
    by rewrite spawn_failed_run.
Qed.

End launcher.

(** A spawn that raises has changed nothing. *)
Lemma spawn_Raise host log_path daemon_path env flags st e st1 :
  spawn host log_path daemon_path env flags st = (Raise e, st1) → st1 = st.
Proof.
  unfold spawn, get_port. run.
  destruct (open_wb host log_path); simpl; [by intros [= _ <-]|].
  destruct (DAEMON_PORTS st); simpl; [by intros [= _ <-]|].
  destruct (subprocess_Popen host _); simpl; [by intros [= _ <-]|done].
Qed.

(** A spawn that returns has opened the log, called [Popen] on it, and kept
    the handle. *)
Lemma spawn_Return host log_path daemon_path env flags st st1 :
  spawn host log_path daemon_path env flags st = (Return (), st1) →
  ∃ call proc,
    open_wb host log_path = None ∧
    subprocess_Popen host call = inr proc ∧
    popen_log call = log_path ∧ popen_env call = env ∧
    popen_creationflags call = flags ∧
    st1 = set_process proc st.
Proof.
  unfold spawn, get_port. run.
  destruct (open_wb host log_path); simpl; [done|].
  destruct (DAEMON_PORTS st); simpl; [done|].
  destruct (subprocess_Popen host _) as [e|proc] eqn:Hp; simpl; [done|].
  intros [= <-]. by eexists _, proc.
Qed.

(** C8: when the launch has reached the [try] statement and the spawn —
    opening the log or [Popen] — raises an exception, [start_daemon_server]
    adds exactly one user report of type ERROR and raises that same
    exception: the write-access report for a [PermissionError], the
    antivirus-or-firewall report for an [OSError] with [winerror] 87 on
    Windows, the error's own text for any other [OSError], and the
    failed-to-start report for any other exception. *)
Theorem start_daemon_server_spawn_failure (host : Host) (st : State)
    (p : string) (rest : list string) (env : gmap string string) (flags : Z)
    (check : CompletedProcess) (e : exn) (st1 : State) :
  DAEMON_PORTS st = p :: rest →
  launch_env host = inr (env, flags) →
  subprocess_run host [sys_executable host; "--version"] env = inr check →
  spawn host (log_path_of host p) (daemon_path_of host) env flags
    (after_check host check env st) = (Raise e, st1) →
  is_Exception (exn_type e) = true →
  ∃ r st',
    start_daemon_server host st = (Raise e, st') ∧
    reports st' = reports st ++ [r] ∧
    report_type r = Some "ERROR" ∧
    daemon_process st' = daemon_process st ∧
    (is_PermissionError (exn_type e) = true →
     report_text r =
       "FATAL ERROR: Write access denied to " +:+ get_daemon_directory_path host +:+
       ". Check you have write permissions to the directory.") ∧
    (is_PermissionError (exn_type e) = false → is_OSError (exn_type e) = true →
     platform_system host = "Windows" → exn_winerror e = Some 87 →
     report_text r =
       "FATAL ERROR: Daemon server blocked from starting. Please check your antivirus or firewall. Error: "
       +:+ exn_str e) ∧
    (is_PermissionError (exn_type e) = false → is_OSError (exn_type e) = true →
     platform_system host ≠ "Windows" ∨ exn_winerror e ≠ Some 87 →
     report_text r = exn_str e) ∧
    (is_OSError (exn_type e) = false →
     report_text r = "Error: Daemon server failed to start - " +:+ exn_str e).
Proof.
  intros Hports Henv Hcheck Hspawn He.
  pose proof (spawn_Raise _ _ _ _ _ _ _ _ Hspawn) as ->.
  exists (failure_notice host (get_daemon_directory_path host) e). eexists.
  split.
  { rewrite (start_daemon_server_run host st p rest env flags check Hports Henv Hcheck).
    by rewrite Hspawn, He. }
  split_and!.
  - simpl. unfold after_check. by case_bool_decide.
  - done.
  - simpl. unfold after_check. by case_bool_decide.
  - intros Hperm. simpl. by rewrite Hperm.
  - intros Hperm Hos Hwin H87. simpl. rewrite Hperm, Hos.
    by rewrite !bool_decide_true.
  - intros Hperm Hos Hor. simpl. rewrite Hperm, Hos.
    destruct Hor as [Hwin|H87].
    + by rewrite (bool_decide_false _ Hwin).
    + rewrite (bool_decide_false _ H87). by rewrite andb_false_r.
  - intros Hos. simpl. rewrite Hos.
    by destruct (exn_type e).
Qed.

Lemma start_daemon_server_spawn_failure_witness :
  ∃ r st',
    start_daemon_server
      (Demo.machine "Linux" (Demo.python 0)
         (Some (mk_exn PermissionError "[Errno 13] Permission denied"))
         (λ c, inr (Demo.proc c)) None)
      (Demo.state ["62485"] 0 false) =
      (Raise (mk_exn PermissionError "[Errno 13] Permission denied"), st') ∧
    reports st' = [r] ∧
    report_type r = Some "ERROR" ∧
    report_text r =
      "FATAL ERROR: Write access denied to /home/user/blenderkit_data/daemon. Check you have write permissions to the directory.".
Proof.
  destruct (start_daemon_server_spawn_failure
              (Demo.machine "Linux" (Demo.python 0)
                 (Some (mk_exn PermissionError "[Errno 13] Permission denied"))
                 (λ c, inr (Demo.proc c)) None)
              (Demo.state ["62485"] 0 false) "62485" []
              (<["PYTHONHOME" := "/addons/blenderkit/.."]>
                 (<["PYTHONPATH" := "/home/user/blenderkit_data/dependencies/installed:/addons/blenderkit/dependencies"]>
                    (<["PATH" := "/usr/bin"]> ∅)))
              0
              {| returncode := 0; stdout_repr := "b'Python 3.10.2'"; stderr_repr := "b''" |}
              (mk_exn PermissionError "[Errno 13] Permission denied")
              (Demo.state ["62485"] 0 false))
    as (r & st' & Hrun & Hreports & Htype & _ & Hperm & _).
  - reflexivity.
  - reflexivity.
  - reflexivity.
  - reflexivity.
  - reflexivity.
  - exists r, st'. split_and!; try done. exact (Hperm eq_refl).
Defined.

(** C9: when the interpreter check exits non-zero, its warning is logged and
    the spawn is attempted all the same; when that spawn succeeds,
    [start_daemon_server] returns with the handle that [Popen] gave kept in
    [daemon_process], having logged a second warning in place of the
    informational message and added the softer user report. *)
Theorem start_daemon_server_after_failed_check (host : Host) (st : State)
    (p : string) (rest : list string) (env : gmap string string) (flags : Z)
    (check : CompletedProcess) (st1 : State) :
  DAEMON_PORTS st = p :: rest →
  launch_env host = inr (env, flags) →
  subprocess_run host [sys_executable host; "--version"] env = inr check →
  returncode check ≠ 0 →
  spawn host (log_path_of host p) (daemon_path_of host) env flags
    (push_log (WARNING, preflight_warning host check env) st) = (Return (), st1) →
  ∃ call proc st',
    subprocess_Popen host call = inr proc ∧
    popen_log call = log_path_of host p ∧
    start_daemon_server host st = (Return (), st') ∧
    daemon_process st' = Some proc ∧
    logs st' =
      logs st ++
      [(WARNING, preflight_warning host check env);
       (WARNING, "Tried to start daemon server on address http://127.0.0.1:" +:+ p +:+
                 ", PID: " +:+ str_of_int (pid proc) +:+ "," +:+ newline +:+
                 "log file located at: " +:+ log_path_of host p)] ∧
    reports st' =
      reports st ++
      [{| report_text := "Due to unsuccessful Python check the daemon server will probably fail to run. Please report a bug at BlenderKit.";
          report_timeout := Some 5;
          report_type := Some "ERROR" |}].
Proof.
  intros Hports Henv Hcheck Hcode Hspawn.
  destruct (spawn_Return _ _ _ _ _ _ _ Hspawn)
    as (call & proc & _ & Hpopen & Hlog & _ & _ & ->).
  exists call, proc. eexists. split_and!; [done|done| | | |].
  - rewrite (start_daemon_server_run host st p rest env flags check Hports Henv Hcheck).
    unfold after_check. rewrite bool_decide_true by done. rewrite Hspawn.
    unfold report_launch. rewrite bool_decide_false by done.
    unfold get_address, get_port, bk_logger, add_report. run.
    rewrite Hports. simpl. reflexivity.
  - done.
  - simpl. by rewrite <- app_assoc.
  - done.
Qed.

Lemma start_daemon_server_after_failed_check_witness :
  ∃ call proc st',
    subprocess_Popen
      (Demo.machine "Linux" (Demo.python 1) None (λ c, inr (Demo.proc c)) None)
      call = inr proc ∧
    start_daemon_server
      (Demo.machine "Linux" (Demo.python 1) None (λ c, inr (Demo.proc c)) None)
      (Demo.state ["62485"] 0 false) = (Return (), st') ∧
    daemon_process st' = Some proc ∧
    length (logs st') = 2%nat ∧
    reports st' =
      [{| report_text := "Due to unsuccessful Python check the daemon server will probably fail to run. Please report a bug at BlenderKit.";
          report_timeout := Some 5;
          report_type := Some "ERROR" |}].
Proof.
  edestruct (start_daemon_server_after_failed_check
               (Demo.machine "Linux" (Demo.python 1) None (λ c, inr (Demo.proc c)) None)
               (Demo.state ["62485"] 0 false) "62485" []
               (<["PYTHONHOME" := "/addons/blenderkit/.."]>
                  (<["PYTHONPATH" := "/home/user/blenderkit_data/dependencies/installed:/addons/blenderkit/dependencies"]>
                     (<["PATH" := "/usr/bin"]> ∅)))
               0
               {| returncode := 1; stdout_repr := "b'Python 3.10.2'"; stderr_repr := "b''" |})
    as (call & proc & st' & Hpopen & _ & Hrun & Hproc & Hlogs & Hreports).
  - reflexivity.
  - reflexivity.
  - reflexivity.
  - simpl. lia.
  - reflexivity.
  - exists call, proc, st'. split_and!; try done. by rewrite Hlogs.
Defined.

(** * Further properties *)

(** ** Port registry: rotations *)

Lemma set_ports_same (st : State) : set_ports (DAEMON_PORTS st) st = st.
Proof. by destruct st. Qed.

Lemma set_ports_twice (l k : list string) (st : State) :
  set_ports l (set_ports k st) = set_ports l st.
Proof. done. Qed.

Lemma index_at_split (p : string) (before after : list string) :
  p ∉ before → index p (before ++ p :: after) = inr (length before).
Proof.
  intros Hnin. unfold index.
  assert (list_find (λ y, y = p) before = None) as Hnone.
  { apply list_find_None, Forall_forall. intros x Hx ->. done. }
  rewrite (list_find_app_r _ _ _ Hnone). simpl.
  by rewrite decide_True.
Qed.

Lemma reorder_ports_at_split (st : State) (p : string) (before after : list string) :
  DAEMON_PORTS st = before ++ p :: after →
  p ∉ before →
  reorder_ports p st = (Return (), set_ports (p :: after ++ before) st).
Proof.
  intros Hports Hnin.
  rewrite (reorder_ports_found st p (length before)).
  - rewrite Hports, drop_app_length, take_app_length. done.
  - rewrite Hports. by apply index_at_split.
Qed.

(** X1: for a port of the registry, [reorder_ports] only permutes the
    registry: the ports after the call are the ports before it, as many of
    each, so a registry without duplicates stays one and a registry is never
    emptied; nothing else of the state changes. *)
Theorem reorder_ports_permutes (st : State) (p : string) :
  p ∈ DAEMON_PORTS st →
  ∃ l,
    reorder_ports p st = (Return (), set_ports l st) ∧
    l ≡ₚ DAEMON_PORTS st ∧
    length l = length (DAEMON_PORTS st) ∧
    (NoDup (DAEMON_PORTS st) → NoDup l) ∧
    l ≠ [].
Proof.
  intros Hin. destruct (index_Some p _ Hin) as (i & Hi & Hl & _).
  exists (drop i (DAEMON_PORTS st) ++ take i (DAEMON_PORTS st)).
  assert (drop i (DAEMON_PORTS st) ++ take i (DAEMON_PORTS st) ≡ₚ DAEMON_PORTS st)
    as Hperm.
  { rewrite Permutation_app_comm. by rewrite take_drop. }
  split_and!.
  - by apply reorder_ports_found.
  - done.
  - by rewrite Hperm.
  - intros Hnd. by rewrite Hperm.
  - rewrite (drop_S _ _ _ Hl). done.
Qed.

Lemma reorder_ports_permutes_witness :
  ∃ l,
    reorder_ports "82" (Demo.state ["80"; "81"; "82"; "83"] 0 false) =
      (Return (), set_ports l (Demo.state ["80"; "81"; "82"; "83"] 0 false)) ∧
    l ≡ₚ ["80"; "81"; "82"; "83"] ∧
    length l = 4%nat.
Proof.
  destruct (reorder_ports_permutes (Demo.state ["80"; "81"; "82"; "83"] 0 false) "82")
    as (l & Hrun & Hperm & Hlen & _).
  - simpl. set_solver.
  - by exists l.
Defined.

(** X2: [reorder_ports] of the port that is already first changes nothing —
    on a registry of one port in particular — and after [reorder_ports p]
    has run once, running it again changes nothing more. *)
Theorem reorder_ports_settles (st : State) (p : string) :
  (∀ rest, DAEMON_PORTS st = p :: rest → reorder_ports p st = (Return (), st)) ∧
  (p ∈ DAEMON_PORTS st →
   (reorder_ports p ≫= λ _, reorder_ports p) st = reorder_ports p st).
Proof.
  assert (∀ st' rest, DAEMON_PORTS st' = p :: rest →
                      reorder_ports p st' = (Return (), st')) as Hhead.
  { intros st' rest Hports.
    rewrite (reorder_ports_at_split st' p [] rest Hports) by set_solver.
    rewrite app_nil_r, <- Hports. by rewrite set_ports_same. }
  split; [by apply Hhead|].
  intros Hin. destruct (index_Some p _ Hin) as (i & Hi & Hl & _).
  rewrite (bind_Return _ _ _ _ _ (reorder_ports_found st p i Hi)).
  rewrite (reorder_ports_found st p i Hi).
  eapply Hhead. simpl. by rewrite (drop_S _ _ _ Hl).
Qed.

Lemma reorder_ports_settles_witness :
  reorder_ports "62485" (Demo.state ["62485"] 0 false) =
    (Return (), Demo.state ["62485"] 0 false) ∧
  (reorder_ports "82" ≫= λ _, reorder_ports "82")
    (Demo.state ["80"; "81"; "82"] 0 false) =
  reorder_ports "82" (Demo.state ["80"; "81"; "82"] 0 false).
Proof.
  destruct (reorder_ports_settles (Demo.state ["62485"] 0 false) "62485") as [Hhead _].
  destruct (reorder_ports_settles (Demo.state ["80"; "81"; "82"] 0 false) "82")
    as [_ Hagain].
  split.
  - exact (Hhead [] eq_refl).
  - apply Hagain. simpl. set_solver.
Defined.

(** X3: on a registry without duplicates the last promotion decides: for
    two ports of the registry, [reorder_ports p] followed by
    [reorder_ports q] leaves the state that [reorder_ports q] alone
    leaves. *)
Theorem reorder_ports_last_wins (st : State) (p q : string) :
  NoDup (DAEMON_PORTS st) →
  p ∈ DAEMON_PORTS st →
  q ∈ DAEMON_PORTS st →
  (reorder_ports p ≫= λ _, reorder_ports q) st = reorder_ports q st.
Proof.
  intros Hnd Hp Hq.
  apply list_elem_of_split in Hp as (a & b & Hports).
  rewrite Hports in Hnd, Hq.
  apply NoDup_app in Hnd as (Hnda & Hab & Hndb).
  apply NoDup_cons in Hndb as (Hpb & Hndb).
  assert (p ∉ a) as Hpa. { intros Hx. apply (Hab p Hx). apply elem_of_cons. by left. }
  rewrite (bind_Return _ _ _ _ _ (reorder_ports_at_split st p a b Hports Hpa)).
  apply elem_of_app in Hq as [Hq|Hq]; [|apply elem_of_cons in Hq as [->|Hq]].
  - apply list_elem_of_split in Hq as (a1 & a2 & ->).
    apply NoDup_app in Hnda as (_ & Ha12 & Hnda2).
    apply NoDup_cons in Hnda2 as (Hqa2 & _).
    assert (q ∉ a1) as Hqa1. { intros H. apply (Ha12 q H). set_solver. }
    assert (q ≠ p) as Hqp. { intros ->. apply Hpa. set_solver. }
    assert (q ∉ b) as Hqb. { intros H. apply (Hab q); set_solver. }
    rewrite (reorder_ports_at_split (set_ports _ st) q (p :: b ++ a1) a2).
    + rewrite (reorder_ports_at_split st q a1 (a2 ++ p :: b)).
      * rewrite set_ports_twice. do 2 f_equal. simpl.
        by rewrite <- !app_assoc.
      * rewrite Hports. by rewrite <- app_assoc.
      * done.
    + simpl. by rewrite <- app_assoc.
    + intros Hx. rewrite elem_of_cons, elem_of_app in Hx.
      destruct Hx as [?|[?|?]]; done.
  - rewrite (reorder_ports_at_split (set_ports _ st) p [] (b ++ a));
      [|done|by apply not_elem_of_nil].
    rewrite (reorder_ports_at_split st p a b Hports Hpa).
    rewrite set_ports_twice. by rewrite app_nil_r.
  - apply list_elem_of_split in Hq as (b1 & b2 & ->).
    apply NoDup_app in Hndb as (_ & Hb12 & Hndb2).
    assert (q ∉ b1) as Hqb1. { intros H. apply (Hb12 q H). set_solver. }
    assert (q ≠ p) as Hqp. { intros ->. apply Hpb. set_solver. }
    assert (q ∉ a) as Hqa. { intros H. apply (Hab q H). set_solver. }
    rewrite (reorder_ports_at_split (set_ports _ st) q (p :: b1) (b2 ++ a)).
    + rewrite (reorder_ports_at_split st q (a ++ p :: b1) b2).
      * rewrite set_ports_twice. do 2 f_equal. simpl.
        by rewrite <- !app_assoc.
      * rewrite Hports. by rewrite <- app_assoc.
      * intros Hx. rewrite elem_of_app, elem_of_cons in Hx.
        destruct Hx as [?|[?|?]]; done.
    + simpl. by rewrite <- app_assoc.
    + intros Hx. rewrite elem_of_cons in Hx. destruct Hx as [?|?]; done.
Qed.

Lemma reorder_ports_last_wins_witness :
  (reorder_ports "83" ≫= λ _, reorder_ports "81")
    (Demo.state ["80"; "81"; "82"; "83"] 0 false) =
  reorder_ports "81" (Demo.state ["80"; "81"; "82"; "83"] 0 false).
Proof.
  apply (reorder_ports_last_wins (Demo.state ["80"; "81"; "82"; "83"] 0 false)).
  - apply (bool_decide_unpack _). by vm_compute.
  - simpl. set_solver.
  - simpl. set_solver.
Defined.

(** ** Requests without a registry *)

Ltac no_request Hports :=
  unfold stops_short, get_address, get_port, bk_logger, try_except;
  run; rewrite Hports; simpl; by split.

(** X4: with an empty registry no operation of the gateway reaches the
    network: each raises the [IndexError] of [DAEMON_PORTS[0]] and sends
    nothing, the probe [daemon_is_alive] included, whose [try] does not
    cover the address lookup. *)
Theorem empty_registry_stops_requests (host : Host) (st : State) :
  DAEMON_PORTS st = [] →
  (∀ data, stops_short (search_asset host data) st no_port) ∧
  (∀ data, stops_short (download_asset host data) st no_port) ∧
  (∀ upload_data export_data upload_set,
     stops_short (upload_asset host upload_data export_data upload_set) st no_port) ∧
  (∀ task_id, stops_short (kill_download host task_id) st no_port) ∧
  (∀ author_data, stops_short (fetch_gravatar_image host author_data) st no_port) ∧
  (∀ api_key, stops_short (get_user_profile host api_key) st no_port) ∧
  (∀ asset_id api_key, stops_short (get_comments host asset_id api_key) st no_port) ∧
  (∀ asset_id comment_text api_key reply_to_id,
     stops_short (create_comment host asset_id comment_text api_key reply_to_id) st
       no_port) ∧
  (∀ asset_id comment_id api_key flag,
     stops_short (feedback_comment host asset_id comment_id api_key flag) st no_port) ∧
  (∀ asset_id comment_id api_key is_private,
     stops_short (mark_comment_private host asset_id comment_id api_key is_private) st
       no_port) ∧
  (∀ notification_id,
     stops_short (mark_notification_read host notification_id) st no_port) ∧
  (∀ report, stops_short (report_usages host report) st no_port) ∧
  (∀ code_verifier, stops_short (send_code_verifier host code_verifier) st no_port) ∧
  (∀ asset_data scene_id api_key,
     stops_short (get_download_url host asset_data scene_id api_key) st no_port) ∧
  (∀ token, stops_short (refresh_token host token) st no_port) ∧
  stops_short (report_blender_quit host) st no_port ∧
  stops_short (kill_daemon_server host) st no_port ∧
  stops_short (daemon_is_alive host) st no_port.
Proof.
  intros Hports. split_and!; intros.
  - unfold search_asset. no_request Hports.
  - unfold download_asset. no_request Hports.
  - unfold upload_asset. no_request Hports.
  - unfold kill_download. no_request Hports.
  - unfold fetch_gravatar_image. no_request Hports.
  - unfold get_user_profile. no_request Hports.
  - unfold get_comments. no_request Hports.
  - unfold create_comment. no_request Hports.
  - unfold feedback_comment. no_request Hports.
  - unfold mark_comment_private. no_request Hports.
  - unfold mark_notification_read. no_request Hports.
  - unfold report_usages. no_request Hports.
  - unfold send_code_verifier. no_request Hports.
  - unfold get_download_url. no_request Hports.
  - unfold refresh_token. no_request Hports.
  - unfold report_blender_quit. no_request Hports.
  - unfold kill_daemon_server. no_request Hports.
  - unfold daemon_is_alive. no_request Hports.
Qed.

Lemma empty_registry_stops_requests_witness :
  stops_short (search_asset Demo.host ∅) (Demo.state [] 0 false) no_port ∧
  stops_short (daemon_is_alive Demo.host) (Demo.state [] 0 false) no_port.
Proof.
  destruct (empty_registry_stops_requests Demo.host (Demo.state [] 0 false) eq_refl)
    as (Hsearch & Hrest).
  split; [apply Hsearch|]. apply Hrest.
Defined.

(** ** Report fetching: edges and order *)

Lemma get_reports_no_port host app_id api_key st :
  DAEMON_PORTS st = [] →
  (DAEMON_FAILED_REPORTS st < 10)%Z →
  get_reports host app_id api_key st = (Raise no_port, st).
Proof.
  intros Hports Hcnt.
  unfold get_reports. erewrite bind_Return; [|done].
  rewrite bool_decide_true by done.
  unfold get_address, get_port. run. by rewrite Hports.
Qed.

(** X5: on an empty registry [get_reports] sends nothing and leaves the
    state as it was: below the threshold it raises the [IndexError] of the
    address lookup, at the threshold the loop has nothing to walk and
    [raise last_exception] raises a [TypeError], [last_exception] being
    [None]. *)
Theorem get_reports_empty_registry (host : Host) (app_id : json)
    (api_key : string) (st : State) :
  DAEMON_PORTS st = [] →
  ((DAEMON_FAILED_REPORTS st < 10)%Z →
   get_reports host app_id api_key st = (Raise no_port, st)) ∧
  ((10 ≤ DAEMON_FAILED_REPORTS st)%Z →
   get_reports host app_id api_key st = (Raise raise_None, st)).
Proof.
  intros Hports. split; intros Hcnt.
  - by apply get_reports_no_port.
  - rewrite get_reports_at_threshold by done. by rewrite Hports.
Qed.

Lemma get_reports_empty_registry_witness :
  get_reports Demo.host (JInt 1000) "KEY" (Demo.state [] 0 false) =
    (Raise no_port, Demo.state [] 0 false) ∧
  get_reports Demo.host (JInt 1000) "KEY" (Demo.state [] 10 false) =
    (Raise raise_None, Demo.state [] 10 false).
Proof.
  split.
  - apply (get_reports_empty_registry Demo.host (JInt 1000) "KEY"
             (Demo.state [] 0 false) eq_refl). simpl. lia.
  - apply (get_reports_empty_registry Demo.host (JInt 1000) "KEY"
             (Demo.state [] 10 false) eq_refl). simpl. lia.
Defined.

Lemma fallback_port_interrupts host data port rest last st e :
  report_outcome host (sent st) port data = inl e →
  is_Exception (exn_type e) = false →
  get_reports_fallback host (port :: rest) data last st =
    (Raise e, push_sent (report_request data port) st).
Proof.
  intros Ho He. simpl.
  rewrite (try_except_passed _ _ _ st e (push_sent (report_request data port) st));
    [done| |exact He].
  apply bind_Raise. by rewrite request_report_run, Ho.
Qed.

Lemma fallback_asks_a_prefix host data ports last st :
  ∃ k, (k ≤ length ports)%nat ∧
    sent (get_reports_fallback host ports data last st).2 =
      sent st ++ map (report_request data) (take k ports).
Proof.
  revert last st. induction ports as [|q ports IH]; intros last st.
  - exists 0%nat. split; [done|]. simpl. rewrite app_nil_r. by destruct last.
  - assert (∀ last' st1, sent st1 = sent st ++ [report_request data q] →
      ∃ k, (k ≤ length (q :: ports))%nat ∧
        sent (get_reports_fallback host ports data last' st1).2 =
          sent st ++ map (report_request data) (take k (q :: ports))) as Hnext.
    { intros last' st1 Hst1. destruct (IH last' st1) as (k & Hk & Hsent).
      exists (S k). split; [simpl; lia|].
      rewrite Hsent, Hst1. simpl. by rewrite <- app_assoc. }
    destruct (report_outcome host (sent st) q data) as [e|r] eqn:Ho.
    + destruct (is_Exception (exn_type e)) eqn:He.
      * rewrite (fallback_port_fails host data q ports last st e Ho He).
        by apply Hnext.
      * rewrite (fallback_port_interrupts host data q ports last st e Ho He).
        exists 1%nat. split; [simpl; lia|]. simpl. by rewrite ?take_0.
    + destruct (decide (q ∈ DAEMON_PORTS st)) as [Hin|Hnin].
      * destruct (index_Some q _ Hin) as (i & Hi & _).
        rewrite (fallback_port_answers host data q ports last st r i Ho Hi).
        exists 1%nat. split; [simpl; lia|]. simpl. by rewrite ?take_0.
      * simpl. unfold try_except.
        rewrite (bind_Return _ _ st r (push_sent (report_request data q) st))
          by (by rewrite request_report_run, Ho).
        run. unfold reorder_ports. run.
        rewrite (index_None q _ Hnin). simpl.
        by apply Hnext.
Qed.

(** X6: whatever the ports answer, [get_reports] asks the ports in the order
    of the registry, starting with the first and skipping none: the requests
    it sends are the report requests for a prefix of the registry — so never
    more than the registry has ports — and for more than the first port only
    when the failure counter has reached 10. *)
Theorem get_reports_asks_in_order (host : Host) (app_id : json)
    (api_key : string) (st : State) :
  ∃ k,
    (k ≤ length (DAEMON_PORTS st))%nat ∧
    sent (get_reports host app_id api_key st).2 =
      sent st ++
      map (report_request (report_data app_id api_key)) (take k (DAEMON_PORTS st)) ∧
    ((k ≤ 1)%nat ∨ (10 ≤ DAEMON_FAILED_REPORTS st)%Z).
Proof.
  destruct (decide (DAEMON_FAILED_REPORTS st < 10)%Z) as [Hlt|Hge].
  - destruct (DAEMON_PORTS st) as [|p rest] eqn:Hports.
    + exists 0%nat. split_and!; [done| |left; lia].
      rewrite (get_reports_no_port host app_id api_key st Hports Hlt).
      simpl. by rewrite app_nil_r.
    + exists 1%nat. split_and!; [simpl; lia| |by left].
      rewrite (get_reports_below_threshold host app_id api_key st p rest Hlt Hports).
      simpl. by rewrite ?take_0.
  - rewrite get_reports_at_threshold by lia.
    destruct (fallback_asks_a_prefix host (report_data app_id api_key)
                (DAEMON_PORTS st) None st) as (k & Hk & Hsent).
    exists k. split_and!; [done|done|right; lia].
Qed.

(** X7: at the threshold, an exception that is not an [Exception] — a
    [KeyboardInterrupt] during the request — ends the walk: it is raised at
    once, the ports after it are not asked, and the registry is as it was. *)
Theorem get_reports_fallback_interrupted (host : Host) (app_id : json)
    (api_key : string) (st : State) (pre : list string) (p : string)
    (post : list string) (e : exn) :
  (10 ≤ DAEMON_FAILED_REPORTS st)%Z →
  DAEMON_PORTS st = pre ++ p :: post →
  all_fail host (report_data app_id api_key) st pre →
  report_outcome host
    (sent st ++ map (report_request (report_data app_id api_key)) pre)
    p (report_data app_id api_key) = inl e →
  is_Exception (exn_type e) = false →
  ∃ st',
    get_reports host app_id api_key st = (Raise e, st') ∧
    sent st' =
      sent st ++ map (report_request (report_data app_id api_key)) (pre ++ [p]) ∧
    DAEMON_PORTS st' = DAEMON_PORTS st.
Proof.
  intros Hge Hports Hfail Ho He.
  destruct (fallback_skips host (report_data app_id api_key) pre (p :: post) None st
              Hfail) as (st1 & last1 & Hrun & Hsent & Hp & _).
  eexists. split_and!.
  - rewrite get_reports_at_threshold by done. rewrite Hports, Hrun.
    apply fallback_port_interrupts; [|done]. by rewrite Hsent.
  - simpl. rewrite Hsent, map_app. simpl. by rewrite <- app_assoc.
  - done.
Qed.

Lemma get_reports_fallback_interrupted_witness :
  ∃ st',
    get_reports (on_network interrupted) (JInt 1000) "KEY"
      (Demo.state ["80"; "81"; "82"] 10 false) =
      (Raise (mk_exn KeyboardInterrupt EmptyString), st') ∧
    sent st' = map (report_request (report_data (JInt 1000) "KEY")) ["80"; "81"] ∧
    DAEMON_PORTS st' = ["80"; "81"; "82"].
Proof.
  apply (get_reports_fallback_interrupted (on_network interrupted) (JInt 1000) "KEY"
           (Demo.state ["80"; "81"; "82"] 10 false) ["80"] "81" ["82"]).
  - simpl. lia.
  - reflexivity.
  - intros [|k] q Hk; [|by destruct k].
    injection Hk as <-. exists Demo.refused. split; reflexivity.
  - reflexivity.
  - reflexivity.
Defined.

Lemma index_lookup (x : string) (l : list string) (i : nat) :
  index x l = inr i → l !! i = Some x.
Proof.
  unfold index.
  destruct (list_find (λ y, y = x) l) as [[j y]|] eqn:Hf; [|done].
  intros [= <-]. by apply list_find_Some in Hf as (Hl & -> & _).
Qed.

(** X8: at the threshold with a default port that answers, the fallback
    costs nothing: that one port is asked, its answer is returned, and the
    registry is what it was. *)
Theorem get_reports_fallback_default_answers (host : Host) (app_id : json)
    (api_key : string) (st : State) (p : string) (rest : list string) (r : json) :
  (10 ≤ DAEMON_FAILED_REPORTS st)%Z →
  DAEMON_PORTS st = p :: rest →
  report_outcome host (sent st) p (report_data app_id api_key) = inr r →
  ∃ st',
    get_reports host app_id api_key st = (Return r, st') ∧
    sent st' = sent st ++ [report_request (report_data app_id api_key) p] ∧
    DAEMON_PORTS st' = DAEMON_PORTS st.
Proof.
  intros Hge Hports Ho. eexists. split_and!.
  - rewrite get_reports_at_threshold by done. rewrite Hports.
    apply (fallback_port_answers host _ p rest None st r 0%nat Ho).
    rewrite Hports. by apply (index_at_split p [] rest), not_elem_of_nil.
  - done.
  - simpl. by rewrite app_nil_r.
Qed.

Lemma get_reports_fallback_default_answers_witness :
  ∃ st',
    get_reports Demo.host (JInt 1000) "KEY" (Demo.state ["81"; "80"; "82"] 12 false) =
      (Return (JDict (<["tasks" := JList []]> ∅)), st') ∧
    sent st' = [report_request (report_data (JInt 1000) "KEY") "81"] ∧
    DAEMON_PORTS st' = ["81"; "80"; "82"].
Proof.
  apply (get_reports_fallback_default_answers Demo.host (JInt 1000) "KEY"
           (Demo.state ["81"; "80"; "82"] 12 false) "81" ["80"; "82"]).
  - simpl. lia.
  - reflexivity.
  - reflexivity.
Defined.

Lemma daemon_is_alive_sent host st p rest :
  DAEMON_PORTS st = p :: rest →
  sent (daemon_is_alive host st).2 = sent st ++ [probe_request p].
Proof.
  intros Hports.
  unfold daemon_is_alive, get_address, get_port, try_except, session_get,
    session_request.
  run. rewrite Hports. simpl. fold (probe_request p).
  destruct (http host (sent st) (probe_request p)) as [err|resp]; simpl.
  - by destruct (is_requests_ConnectionError (exn_type err)).
  - by case_bool_decide.
Qed.

(** X9: the promotion is what the next operation sees: after a fallback
    fetch that port [p] answered, [get_address] gives the address of [p],
    the next probe [daemon_is_alive] goes to [p], and the failure counter,
    which [get_reports] does not reset, still stands at 10 or more. *)
Theorem get_reports_promotion_is_used (host : Host) (app_id : json)
    (api_key : string) (st : State) (pre : list string) (p : string)
    (post : list string) (r : json) :
  (10 ≤ DAEMON_FAILED_REPORTS st)%Z →
  DAEMON_PORTS st = pre ++ p :: post →
  all_fail host (report_data app_id api_key) st pre →
  report_outcome host
    (sent st ++ map (report_request (report_data app_id api_key)) pre)
    p (report_data app_id api_key) = inr r →
  ∃ st',
    get_reports host app_id api_key st = (Return r, st') ∧
    get_address st' = (Return ("http://127.0.0.1:" +:+ p), st') ∧
    sends (daemon_is_alive host) st' (λ probe, probe = probe_request p) ∧
    (10 ≤ DAEMON_FAILED_REPORTS st')%Z.
Proof.
  intros Hge Hports Hfail Ho.
  destruct (fallback_first_answer host (report_data app_id api_key)
              pre p post None st r Hfail Ho) as (st' & i & Hrun & _ & Hi & Hp & Hcnt).
  { rewrite Hports, elem_of_app, elem_of_cons. by right; left. }
  apply index_lookup in Hi.
  assert (DAEMON_PORTS st' =
          p :: drop (S i) (DAEMON_PORTS st) ++ take i (DAEMON_PORTS st)) as Hhead.
  { rewrite Hp. by rewrite (drop_S _ _ _ Hi). }
  exists st'. split_and!.
  - rewrite get_reports_at_threshold by done. by rewrite Hports.
  - unfold get_address, get_port. run. by rewrite Hhead.
  - exists (probe_request p). split; [|done].
    by apply (daemon_is_alive_sent host st' p _ Hhead).
  - by rewrite Hcnt.
Qed.

Lemma get_reports_promotion_is_used_witness :
  ∃ st',
    get_reports Demo.host (JInt 1000) "KEY" (Demo.state ["80"; "81"; "82"] 10 false) =
      (Return (JDict (<["tasks" := JList []]> ∅)), st') ∧
    get_address st' = (Return "http://127.0.0.1:81", st') ∧
    sends (daemon_is_alive Demo.host) st' (λ probe, probe = probe_request "81") ∧
    (10 ≤ DAEMON_FAILED_REPORTS st')%Z.
Proof.
  apply (get_reports_promotion_is_used Demo.host (JInt 1000) "KEY"
           (Demo.state ["80"; "81"; "82"] 10 false) ["80"] "81" ["82"]).
  - simpl. lia.
  - reflexivity.
  - intros [|k] q Hk; [|by destruct k].
    injection Hk as <-. exists Demo.refused. split; reflexivity.
  - reflexivity.
Defined.

(** ** Status notifier over a session *)

Lemma handle_daemon_status_task_step (host : Host) (task : gmap string json)
    (st : State) :
  is_Some (task !! "online_status") →
  DAEMON_ONLINE (handle_daemon_status_task host task st).2 = reports_200 task ∧
  length (reports (handle_daemon_status_task host task st).2) =
    (length (reports st) +
     (if Bool.eqb (DAEMON_ONLINE st) (reports_200 task) then 0 else 1))%nat.
Proof.
  intros [status Hstatus]. unfold reports_200. rewrite Hstatus.
  rewrite (handle_daemon_status_task_run host task status st Hstatus). simpl.
  destruct (eq_int status 200); destruct (DAEMON_ONLINE st) eqn:Hflag; simpl;
    rewrite ?length_app; simpl; split; (done || lia).
Qed.

(** X10: over any sequence of status tasks, each with its [online_status],
    handled one after the other, the notifier adds as many notices as the
    probe result changes — counted from the flag it started with — and the
    flag ends as the last probe's result. *)
Theorem notices_count_changes (host : Host) (tasks : list (gmap string json))
    (st : State) :
  Forall (λ task, is_Some (task !! "online_status")) tasks →
  length (reports (handle_all host tasks st)) =
    (length (reports st) + flips (DAEMON_ONLINE st) (reports_200 <$> tasks))%nat ∧
  DAEMON_ONLINE (handle_all host tasks st) =
    default (DAEMON_ONLINE st) (last (reports_200 <$> tasks)).
Proof.
  revert st. induction tasks as [|task tasks IH]; intros st Hkeys.
  - simpl. split; [lia|done].
  - apply Forall_cons in Hkeys as [Hkey Hkeys].
    destruct (handle_daemon_status_task_step host task st Hkey) as [Hflag Hlen].
    destruct (IH (handle_daemon_status_task host task st).2 Hkeys) as [IHlen IHflag].
    unfold handle_all in *. simpl. split.
    + rewrite IHlen, Hlen, Hflag. symmetry. apply Nat.add_assoc.
    + rewrite IHflag, Hflag.
      unfold fmap. simpl.
      destruct (list_fmap _ _ reports_200 tasks) as [|b l]; [done|].
      change (last (reports_200 task :: b :: l)) with (last (b :: l)).
      destruct (last (b :: l)) eqn:Hlast; [done|].
      by apply last_None in Hlast.
Qed.

Lemma notices_count_changes_witness :
  length (reports (handle_all Demo.host
                     [Demo.status_task 200; Demo.status_task 200;
                      Demo.status_task 429; Demo.status_task 503;
                      Demo.status_task 200]
                     (Demo.state ["62485"] 0 false))) = 3%nat ∧
  DAEMON_ONLINE (handle_all Demo.host
                   [Demo.status_task 200; Demo.status_task 200;
                    Demo.status_task 429; Demo.status_task 503;
                    Demo.status_task 200]
                   (Demo.state ["62485"] 0 false)) = true.
Proof.
  apply (notices_count_changes Demo.host
           [Demo.status_task 200; Demo.status_task 200;
            Demo.status_task 429; Demo.status_task 503;
            Demo.status_task 200]
           (Demo.state ["62485"] 0 false)).
  repeat (apply Forall_cons; split; [by eexists|]). apply Forall_nil_2.
Defined.

(** ** Exit-code classifier: edges *)

(** X11: [check_daemon_exit_code] only reads: whatever it returns or raises,
    the state is as before.  Without a daemon process it raises
    [AttributeError].  A process that still runs is reported as running even
    on an empty registry, but for a process that has exited the log path is
    built first, so on an empty registry every exit code — those whose
    message does not mention the log too — ends in [IndexError]. *)
Theorem check_daemon_exit_code_edges (host : Host) (st : State) :
  (check_daemon_exit_code host st).2 = st ∧
  (daemon_process st = None →
   ∃ e, (check_daemon_exit_code host st).1 = Raise e ∧ exn_type e = AttributeError) ∧
  (∀ proc,
     daemon_process st = Some proc →
     process_poll host proc = None →
     (check_daemon_exit_code host st).1 = Return (None, "Daemon process is running.")) ∧
  (∀ proc code,
     daemon_process st = Some proc →
     process_poll host proc = Some code →
     DAEMON_PORTS st = [] →
     (check_daemon_exit_code host st).1 = Raise no_port).
Proof.
  unfold check_daemon_exit_code, get_port. run. split_and!.
  - destruct (daemon_process st) as [proc|]; [|done].
    destruct (process_poll host proc); [|done]. simpl.
    by destruct (DAEMON_PORTS st).
  - intros ->. by eexists.
  - by intros proc -> ->.
  - intros proc code -> -> ->. done.
Qed.

Lemma check_daemon_exit_code_edges_witness :
  (∃ e, (check_daemon_exit_code Demo.host (Demo.state ["62485"] 0 false)).1 = Raise e ∧
        exn_type e = AttributeError) ∧
  (check_daemon_exit_code Demo.host (set_process Demo.child (Demo.state [] 0 false))).1 =
    Return (None, "Daemon process is running.") ∧
  (check_daemon_exit_code Offline.host (set_process Demo.child (Demo.state [] 0 false))).1 =
    Raise no_port.
Proof.
  split_and!.
  - by apply (check_daemon_exit_code_edges Demo.host (Demo.state ["62485"] 0 false)).
  - by apply (check_daemon_exit_code_edges Demo.host
                (set_process Demo.child (Demo.state [] 0 false))) with Demo.child.
  - by apply (check_daemon_exit_code_edges Offline.host
                (set_process Demo.child (Demo.state [] 0 false))) with Demo.child 111.
Defined.

(** X12: the diagnosis names what the user is told to look at: for the exit
    codes 101 and 102 the message contains the dependencies path it asks to
    delete, and for 100, 114 and every code outside the table it contains
    the path of the log of the current port. *)
Theorem check_daemon_exit_code_names_paths (host : Host) (st : State)
    (proc : Process) (p : string) (rest : list string) (code : Z) :
  daemon_process st = Some proc →
  DAEMON_PORTS st = p :: rest →
  process_poll host proc = Some code →
  ∃ message,
    check_daemon_exit_code host st = (Return (Some code, message), st) ∧
    (code ∈ [101; 102] → contains (dependencies_path host) message = true) ∧
    (code ∉ [101; 102; 111; 113; 121; 148; 149] →
     contains (log_path_of host p) message = true).
Proof.
  intros Hproc Hports Hpoll. eexists. split; [|split].
  - unfold check_daemon_exit_code, get_port. run.
    rewrite Hproc, Hpoll. simpl. rewrite Hports. reflexivity.
  - rewrite !elem_of_cons, elem_of_nil. intros [->|[->|[]]].
    + rewrite bool_decide_true by done. apply contains_middle.
    + rewrite bool_decide_false by done. rewrite bool_decide_true by done.
      apply contains_middle.
  - rewrite !not_elem_of_cons. intros (? & ? & ? & ? & ? & ? & ? & _).
    unfold log_path_of.
    repeat case_bool_decide; try done; apply contains_suffix.
Qed.

Lemma check_daemon_exit_code_names_paths_witness :
  ∃ message,
    check_daemon_exit_code
        (Demo.machine "Linux" (Demo.python 0) None (λ c, inr (Demo.proc c)) (Some 114))
        (set_process Demo.child (Demo.state ["62485"] 0 false)) =
      (Return (Some 114, message),
       set_process Demo.child (Demo.state ["62485"] 0 false)) ∧
    contains "/home/user/blenderkit_data/daemon/daemon-62485.log" message = true.
Proof.
  destruct (check_daemon_exit_code_names_paths
              (Demo.machine "Linux" (Demo.python 0) None (λ c, inr (Demo.proc c)) (Some 114))
              (set_process Demo.child (Demo.state ["62485"] 0 false))
              Demo.child "62485" [] 114 eq_refl eq_refl eq_refl)
    as (message & Hrun & _ & Hlog).
  exists message. split; [done|]. apply Hlog.
  rewrite !elem_of_cons, elem_of_nil. intros H.
  repeat (destruct H as [H|H]; [discriminate H|]). done.
Defined.

(** ** Process launcher: environment and outcomes *)




(** X14: when the interpreter check passes and the spawn succeeds,
    [start_daemon_server] returns with the handle [Popen] gave kept in
    [daemon_process], one informational record added to the log, and no
    user report. *)
Theorem start_daemon_server_after_passed_check (host : Host) (st : State)
    (p : string) (rest : list string) (env : gmap string string) (flags : Z)
    (check : CompletedProcess) (st1 : State) :
  DAEMON_PORTS st = p :: rest →
  launch_env host = inr (env, flags) →
  subprocess_run host [sys_executable host; "--version"] env = inr check →
  returncode check = 0 →
  spawn host (log_path_of host p) (daemon_path_of host) env flags st = (Return (), st1) →
  ∃ call proc st',
    subprocess_Popen host call = inr proc ∧
    popen_env call = env ∧ popen_creationflags call = flags ∧
    start_daemon_server host st = (Return (), st') ∧
    daemon_process st' = Some proc ∧
    logs st' =
      logs st ++
      [(INFO, "Daemon server starting on address http://127.0.0.1:" +:+ p +:+
              ", log file for errors located at: " +:+ log_path_of host p)] ∧
    reports st' = reports st.
Proof.
  intros Hports Henv Hcheck Hcode Hspawn.
  destruct (spawn_Return _ _ _ _ _ _ _ Hspawn)
    as (call & proc & _ & Hpopen & _ & Hcenv & Hcflags & ->).
  exists call, proc. eexists. split_and!; [done|done|done| | | |].
  - rewrite (start_daemon_server_run host st p rest env flags check Hports Henv Hcheck).
    unfold after_check. rewrite bool_decide_false by (by intros []).
    rewrite Hspawn.
    unfold report_launch. rewrite bool_decide_true by done.
    unfold get_address, get_port, bk_logger. run.
    rewrite Hports. simpl. reflexivity.
  - done.
  - done.
  - done.
Qed.

Lemma start_daemon_server_after_passed_check_witness :
  ∃ call proc st',
    subprocess_Popen Demo.host call = inr proc ∧
    popen_creationflags call = 0 ∧
    start_daemon_server Demo.host (Demo.state ["62485"] 0 false) = (Return (), st') ∧
    daemon_process st' = Some proc ∧
    length (logs st') = 1%nat ∧
    reports st' = [].
Proof.
  edestruct (start_daemon_server_after_passed_check Demo.host
               (Demo.state ["62485"] 0 false) "62485" []
               (<["PYTHONHOME" := "/addons/blenderkit/.."]>
                  (<["PYTHONPATH" := "/home/user/blenderkit_data/dependencies/installed:/addons/blenderkit/dependencies"]>
                     (<["PATH" := "/usr/bin"]> ∅)))
               0
               {| returncode := 0; stdout_repr := "b'Python 3.10.2'"; stderr_repr := "b''" |})
    as (call & proc & st' & Hpopen & _ & Hflags & Hrun & Hproc & Hlogs & Hreports).
  - reflexivity.
  - reflexivity.
  - reflexivity.
  - reflexivity.
  - reflexivity.
  - exists call, proc, st'. split_and!; try done. by rewrite Hlogs.
Defined.



(** X16: an exception of the spawn that is not an [Exception] — the user
    interrupting [Popen] — is outside every [except] clause: it is raised to
    the caller with no user report added and no handle stored. *)
Theorem start_daemon_server_spawn_interrupted (host : Host) (st : State)
    (p : string) (rest : list string) (env : gmap string string) (flags : Z)
    (check : CompletedProcess) (e : exn) (st1 : State) :
  DAEMON_PORTS st = p :: rest →
  launch_env host = inr (env, flags) →
  subprocess_run host [sys_executable host; "--version"] env = inr check →
  spawn host (log_path_of host p) (daemon_path_of host) env flags
    (after_check host check env st) = (Raise e, st1) →
  is_Exception (exn_type e) = false →
  ∃ st',
    start_daemon_server host st = (Raise e, st') ∧
    reports st' = reports st ∧
    daemon_process st' = daemon_process st.
Proof.
  intros Hports Henv Hcheck Hspawn He.
  pose proof (spawn_Raise _ _ _ _ _ _ _ _ Hspawn) as ->.
  eexists. split_and!.
  - rewrite (start_daemon_server_run host st p rest env flags check Hports Henv Hcheck).
    by rewrite Hspawn, He.
  - unfold after_check. by case_bool_decide.
  - unfold after_check. by case_bool_decide.
Qed.

Lemma start_daemon_server_spawn_interrupted_witness :
  ∃ st',
    start_daemon_server
      (Demo.machine "Linux" (Demo.python 0) None
         (λ _, inl (mk_exn KeyboardInterrupt EmptyString)) None)
      (Demo.state ["62485"] 0 false) =
      (Raise (mk_exn KeyboardInterrupt EmptyString), st') ∧
    reports st' = [] ∧
    daemon_process st' = None.
Proof.
  apply (start_daemon_server_spawn_interrupted
           (Demo.machine "Linux" (Demo.python 0) None
              (λ _, inl (mk_exn KeyboardInterrupt EmptyString)) None)
           (Demo.state ["62485"] 0 false) "62485" []
           (<["PYTHONHOME" := "/addons/blenderkit/.."]>
              (<["PYTHONPATH" := "/home/user/blenderkit_data/dependencies/installed:/addons/blenderkit/dependencies"]>
                 (<["PATH" := "/usr/bin"]> ∅)))
           0
           {| returncode := 0; stdout_repr := "b'Python 3.10.2'"; stderr_repr := "b''" |}
           (mk_exn KeyboardInterrupt EmptyString)
           (Demo.state ["62485"] 0 false)); reflexivity.
Defined.

Lemma spawn_call host log_path daemon_path env flags st st1 p rest :
  DAEMON_PORTS st = p :: rest →
  spawn host log_path daemon_path env flags st = (Return (), st1) →
  ∃ proc,
    subprocess_Popen host
      {| popen_args :=
           [ Some (sys_executable host); Some "-u"; Some daemon_path;
             Some "--port"; Some p;
             Some "--server"; Some (SERVER st);
             Some "--proxy_which"; PREFS st !! "proxy_which";
             Some "--proxy_address"; PREFS st !! "proxy_address";
             Some "--proxy_ca_certs"; PREFS st !! "proxy_ca_certs";
             Some "--ip_version"; PREFS st !! "ip_version";
             Some "--system_id"; Some (prefs_system_id host);
             Some "--version"; Some (version_string (VERSION st)) ];
         popen_env := env;
         popen_log := log_path;
         popen_creationflags := flags |} = inr proc ∧
    st1 = set_process proc st.
Proof.
  intros Hports. unfold spawn, get_port. run.
  destruct (open_wb host log_path); simpl; [done|].
  rewrite Hports. simpl.
  destruct (subprocess_Popen host _) as [e|proc] eqn:Hp; simpl; [done|].
  intros [= <-]. by exists proc.
Qed.

(** X17: the command line of a start that succeeds: the interpreter, [-u]
    and the daemon script, then eight flags each followed by its value.  The
    value of [--port] is the first port of the registry, the port the log
    file is named after; [--server] carries [SERVER], [--version] the four
    numbers of [VERSION] joined by dots, [--system_id] the system id, and
    each of the four proxy and ip-version flags the preference of its
    name. *)
Theorem start_daemon_server_command_line (host : Host) (st : State)
    (p : string) (rest : list string) (env : gmap string string) (flags : Z)
    (check : CompletedProcess) (st1 : State) :
  DAEMON_PORTS st = p :: rest →
  launch_env host = inr (env, flags) →
  subprocess_run host [sys_executable host; "--version"] env = inr check →
  spawn host (log_path_of host p) (daemon_path_of host) env flags
    (after_check host check env st) = (Return (), st1) →
  ∃ call proc st',
    subprocess_Popen host call = inr proc ∧
    start_daemon_server host st = (Return (), st') ∧
    daemon_process st' = Some proc ∧
    popen_log call =
      get_daemon_directory_path host +:+ "/daemon-" +:+ p +:+ ".log" ∧
    take 3 (popen_args call) =
      [Some (sys_executable host); Some "-u"; Some (daemon_path_of host)] ∧
    length (popen_args call) = 19%nat ∧
    flag_value "--port" (drop 3 (popen_args call)) = Some (Some p) ∧
    flag_value "--server" (drop 3 (popen_args call)) = Some (Some (SERVER st)) ∧
    (∀ pref value,
       pref ∈ ["proxy_which"; "proxy_address"; "proxy_ca_certs"; "ip_version"] →
       PREFS st !! pref = Some value →
       flag_value ("--" +:+ pref) (drop 3 (popen_args call)) = Some (Some value)) ∧
    flag_value "--system_id" (drop 3 (popen_args call)) =
      Some (Some (prefs_system_id host)) ∧
    flag_value "--version" (drop 3 (popen_args call)) =
      Some (Some (version_string (VERSION st))).
Proof.
  intros Hports Henv Hcheck Hspawn.
  pose proof (start_daemon_server_run host st p rest env flags check Hports Henv Hcheck)
    as Hstart.
  remember (after_check host check env st) as st0 eqn:Hst0.
  assert (DAEMON_PORTS st0 = p :: rest ∧ SERVER st0 = SERVER st ∧
          PREFS st0 = PREFS st ∧ VERSION st0 = VERSION st) as (Hports' & Hs & Hp & Hv).
  { rewrite Hst0. unfold after_check. by case_bool_decide. }
  clear Hst0.
  destruct (spawn_call _ _ _ _ _ _ _ _ _ Hports' Hspawn) as (proc & Hpopen & ->).
  rewrite Hs, Hp, Hv in Hpopen.
  eexists _, proc.
  assert (∃ st', start_daemon_server host st = (Return (), st') ∧
                 daemon_process st' = Some proc) as (st' & Hrun & Hproc).
  { rewrite Hstart, Hspawn.
    unfold report_launch.
    case_bool_decide; unfold get_address, get_port, bk_logger, add_report;
      run; rewrite Hports'; simpl; by eexists. }
  exists st'. split_and!; [exact Hpopen|done|done|done|done|done|done|done| |done|done].
  intros pref value Hpref Hvalue. rewrite !elem_of_cons, elem_of_nil in Hpref.
  destruct Hpref as [->|[->|[->|[->|[]]]]]; rewrite <- Hvalue; reflexivity.
Qed.

Lemma start_daemon_server_command_line_witness :
  ∃ call proc st',
    subprocess_Popen Demo.host call = inr proc ∧
    start_daemon_server Demo.host (Demo.state ["62485"] 0 false) = (Return (), st') ∧
    daemon_process st' = Some proc ∧
    popen_log call = "/home/user/blenderkit_data/daemon/daemon-62485.log" ∧
    flag_value "--port" (drop 3 (popen_args call)) = Some (Some "62485") ∧
    flag_value "--ip_version" (drop 3 (popen_args call)) = Some (Some "BOTH") ∧
    flag_value "--proxy_which" (drop 3 (popen_args call)) = Some (Some "SYSTEM") ∧
    flag_value "--version" (drop 3 (popen_args call)) = Some (Some "3.8.0.230605").
Proof.
  edestruct (start_daemon_server_command_line Demo.host
               (Demo.state ["62485"] 0 false) "62485" []
               (<["PYTHONHOME" := "/addons/blenderkit/.."]>
                  (<["PYTHONPATH" := "/home/user/blenderkit_data/dependencies/installed:/addons/blenderkit/dependencies"]>
                     (<["PATH" := "/usr/bin"]> ∅)))
               0
               {| returncode := 0; stdout_repr := "b'Python 3.10.2'"; stderr_repr := "b''" |})
    as (call & proc & st' & Hpopen & Hrun & Hproc & Hlog & _ & _ & Hport & _ & Hprefs
        & _ & Hversion).
  - reflexivity.
  - reflexivity.
  - reflexivity.
  - reflexivity.
  - exists call, proc, st'. split_and!; try done.
    + apply (Hprefs "ip_version" "BOTH"); [rewrite !elem_of_cons; tauto|].
      vm_compute. reflexivity.
    + apply (Hprefs "proxy_which" "SYSTEM"); [rewrite !elem_of_cons; tauto|].
      vm_compute. reflexivity.
Defined.

(** ** Request gateway: addresses, bodies, results *)

(** X18: every operation of the gateway goes to the daemon behind the first
    port of the registry, with its own method and path: POST for search,
    download, upload, the four comment operations, the notification, the
    usage report and the code verifier; GET for the rest, the probe going to
    the bare address. *)
Theorem feature_requests_reach_default_port (host : Host) (st : State)
    (p : string) (rest : list string) :
  DAEMON_PORTS st = p :: rest →
  (∀ data, sends (search_asset host data) st (goes_to POST (endpoint p "/search_asset"))) ∧
  (∀ data,
     sends (download_asset host data) st (goes_to POST (endpoint p "/download_asset"))) ∧
  (∀ upload_data export_data upload_set,
     sends (upload_asset host upload_data export_data upload_set) st
       (goes_to POST (endpoint p "/upload_asset"))) ∧
  (∀ task_id,
     sends (kill_download host task_id) st (goes_to GET (endpoint p "/kill_download"))) ∧
  (∀ author_data,
     sends (fetch_gravatar_image host author_data) st
       (goes_to GET (endpoint p "/profiles/fetch_gravatar_image"))) ∧
  (∀ api_key,
     sends (get_user_profile host api_key) st
       (goes_to GET (endpoint p "/profiles/get_user_profile"))) ∧
  (∀ asset_id api_key,
     sends (get_comments host asset_id api_key) st
       (goes_to POST (endpoint p "/comments/get_comments"))) ∧
  (∀ asset_id comment_text api_key reply_to_id,
     sends (create_comment host asset_id comment_text api_key reply_to_id) st
       (goes_to POST (endpoint p "/comments/create_comment"))) ∧
  (∀ asset_id comment_id api_key flag,
     sends (feedback_comment host asset_id comment_id api_key flag) st
       (goes_to POST (endpoint p "/comments/feedback_comment"))) ∧
  (∀ asset_id comment_id api_key is_private,
     sends (mark_comment_private host asset_id comment_id api_key is_private) st
       (goes_to POST (endpoint p "/comments/mark_comment_private"))) ∧
  (∀ notification_id,
     sends (mark_notification_read host notification_id) st
       (goes_to POST (endpoint p "/notifications/mark_notification_read"))) ∧
  (∀ report,
     sends (report_usages host report) st (goes_to POST (endpoint p "/report_usages"))) ∧
  (∀ code_verifier,
     sends (send_code_verifier host code_verifier) st
       (goes_to POST (endpoint p "/code_verifier"))) ∧
  (∀ asset_data scene_id api_key,
     sends (get_download_url host asset_data scene_id api_key) st
       (goes_to GET (endpoint p "/wrappers/get_download_url"))) ∧
  (∀ token,
     sends (refresh_token host token) st (goes_to GET (endpoint p "/refresh_token"))) ∧
  sends (report_blender_quit host) st (goes_to GET (endpoint p "/report_blender_quit")) ∧
  sends (kill_daemon_server host) st (goes_to GET (endpoint p "/shutdown")) ∧
  sends (daemon_is_alive host) st (goes_to GET ("http://127.0.0.1:" +:+ p)).
Proof.
  intros Hports. unfold endpoint. split_and!; intros.
  - unfold search_asset. one_request Hports; by split.
  - unfold download_asset. one_request Hports; by split.
  - unfold upload_asset. one_request Hports; by split.
  - unfold kill_download. one_request Hports; by split.
  - unfold fetch_gravatar_image. one_request Hports; by split.
  - unfold get_user_profile. one_request Hports; by split.
  - unfold get_comments. one_request Hports; by split.
  - unfold create_comment. one_request Hports; by split.
  - unfold feedback_comment. one_request Hports; by split.
  - unfold mark_comment_private. one_request Hports; by split.
  - unfold mark_notification_read. one_request Hports; by split.
  - unfold report_usages. one_request Hports; by split.
  - unfold send_code_verifier. one_request Hports; by split.
  - unfold get_download_url. one_request Hports; by split.
  - unfold refresh_token. one_request Hports; by split.
  - unfold report_blender_quit. one_request Hports; by split.
  - unfold kill_daemon_server. one_request Hports; by split.
  - exists (probe_request p). split; [|by split].
    by apply (daemon_is_alive_sent host st p rest).
Qed.

Lemma feature_requests_reach_default_port_witness :
  sends (kill_daemon_server Demo.host) (Demo.state ["62485"; "65425"] 0 false)
    (goes_to GET "http://127.0.0.1:62485/shutdown") ∧
  sends (search_asset Demo.host ∅) (Demo.state ["62485"; "65425"] 0 false)
    (goes_to POST "http://127.0.0.1:62485/search_asset").
Proof.
  destruct (feature_requests_reach_default_port Demo.host
              (Demo.state ["62485"; "65425"] 0 false) "62485" ["65425"] eq_refl)
    as (Hsearch & Hrest).
  split; [|apply Hsearch].
  apply Hrest.
Defined.

Ltac keeps_fields :=
  eexists; split; [reflexivity|];
  let k := fresh "k" in let Hk := fresh "Hk" in
  intros k Hk; rewrite !not_elem_of_cons in Hk; destruct_and!;
  by rewrite ?lookup_insert_ne by done.

(** X19: the operations that take the caller's dictionary send it on with
    only their own entries written over: [search_asset], [download_asset]
    and [fetch_gravatar_image] set [app_id] to the process id whatever the
    caller had put there and keep every other entry; [report_usages] sets
    [api_key] from the preferences and [app_id], and keeps the rest. *)
Theorem caller_data_is_passed_on (host : Host) (st : State)
    (p : string) (rest : list string) (data : gmap string json) :
  DAEMON_PORTS st = p :: rest →
  sends (search_asset host data) st
    (λ r, passes_on data ["app_id"] r ∧ carries_app_id (JInt (os_getpid host)) r) ∧
  sends (download_asset host data) st
    (λ r, passes_on data ["app_id"] r ∧ carries_app_id (JInt (os_getpid host)) r) ∧
  sends (fetch_gravatar_image host data) st
    (λ r, passes_on data ["app_id"] r ∧ carries_app_id (JInt (os_getpid host)) r) ∧
  sends (report_usages host data) st
    (λ r, passes_on data ["api_key"; "app_id"] r ∧
          carries_app_id (JInt (os_getpid host)) r ∧
          ∃ body, req_json r = Some body ∧
                  body !! "api_key" = Some (JStr (prefs_api_key host))).
Proof.
  intros Hports. split_and!.
  - unfold search_asset. one_request Hports; (split; [keeps_fields|has_app_id]).
  - unfold download_asset. one_request Hports; (split; [keeps_fields|has_app_id]).
  - unfold fetch_gravatar_image. one_request Hports; (split; [keeps_fields|has_app_id]).
  - unfold report_usages.
    one_request Hports; (split_and!; [keeps_fields|has_app_id|has_app_id]).
Qed.

Lemma caller_data_is_passed_on_witness :
  sends (search_asset Demo.host
           (<["app_id" := JStr "forged"]> (<["query" := JStr "chair"]> ∅)))
    (Demo.state ["62485"] 0 false)
    (λ r, passes_on (<["app_id" := JStr "forged"]> (<["query" := JStr "chair"]> ∅))
            ["app_id"] r ∧
          carries_app_id (JInt 1000) r).
Proof.
  destruct (caller_data_is_passed_on Demo.host (Demo.state ["62485"] 0 false)
              "62485" []
              (<["app_id" := JStr "forged"]> (<["query" := JStr "chair"]> ∅)) eq_refl)
    as (Hsearch & _).
  apply Hsearch.
Defined.

Ltac asks Hports Hnet :=
  unfold asks_once, session_get, session_post, session_request,
    get_address, get_port, bk_logger;
  run; rewrite Hports; simpl; rewrite Hnet; simpl;
  repeat match goal with
         | |- context [resp_json ?r] => destruct (resp_json r); simpl
         end;
  (split; [reflexivity|by eexists]).

(** X20: the gateway does not retry and does not translate errors: when the
    network fails the request with [e], each operation has sent that one
    request and raises [e] itself. *)
Theorem feature_requests_fail_once (host : Host) (st : State)
    (p : string) (rest : list string) (e : exn) :
  DAEMON_PORTS st = p :: rest →
  (∀ r, http host (sent st) r = inl e) →
  (∀ data, asks_once (search_asset host data) st (Raise e)) ∧
  (∀ data, asks_once (download_asset host data) st (Raise e)) ∧
  (∀ upload_data export_data upload_set,
     asks_once (upload_asset host upload_data export_data upload_set) st (Raise e)) ∧
  (∀ task_id, asks_once (kill_download host task_id) st (Raise e)) ∧
  (∀ author_data, asks_once (fetch_gravatar_image host author_data) st (Raise e)) ∧
  (∀ api_key, asks_once (get_user_profile host api_key) st (Raise e)) ∧
  (∀ asset_id api_key, asks_once (get_comments host asset_id api_key) st (Raise e)) ∧
  (∀ asset_id comment_text api_key reply_to_id,
     asks_once (create_comment host asset_id comment_text api_key reply_to_id) st
       (Raise e)) ∧
  (∀ asset_id comment_id api_key flag,
     asks_once (feedback_comment host asset_id comment_id api_key flag) st (Raise e)) ∧
  (∀ asset_id comment_id api_key is_private,
     asks_once (mark_comment_private host asset_id comment_id api_key is_private) st
       (Raise e)) ∧
  (∀ notification_id,
     asks_once (mark_notification_read host notification_id) st (Raise e)) ∧
  (∀ report, asks_once (report_usages host report) st (Raise e)) ∧
  (∀ code_verifier, asks_once (send_code_verifier host code_verifier) st (Raise e)) ∧
  (∀ asset_data scene_id api_key,
     asks_once (get_download_url host asset_data scene_id api_key) st (Raise e)) ∧
  (∀ token, asks_once (refresh_token host token) st (Raise e)) ∧
  asks_once (report_blender_quit host) st (Raise e) ∧
  asks_once (kill_daemon_server host) st (Raise e).
Proof.
  intros Hports Hnet. split_and!; intros.
  - unfold search_asset. asks Hports Hnet.
  - unfold download_asset. asks Hports Hnet.
  - unfold upload_asset. asks Hports Hnet.
  - unfold kill_download. asks Hports Hnet.
  - unfold fetch_gravatar_image. asks Hports Hnet.
  - unfold get_user_profile. asks Hports Hnet.
  - unfold get_comments. asks Hports Hnet.
  - unfold create_comment. asks Hports Hnet.
  - unfold feedback_comment. asks Hports Hnet.
  - unfold mark_comment_private. asks Hports Hnet.
  - unfold mark_notification_read. asks Hports Hnet.
  - unfold report_usages. asks Hports Hnet.
  - unfold send_code_verifier. asks Hports Hnet.
  - unfold get_download_url. asks Hports Hnet.
  - unfold refresh_token. asks Hports Hnet.
  - unfold report_blender_quit. asks Hports Hnet.
  - unfold kill_daemon_server. asks Hports Hnet.
Qed.

Lemma feature_requests_fail_once_witness :
  asks_once (search_asset Offline.host ∅) (Demo.state ["62485"] 0 false)
    (Raise Demo.refused) ∧
  asks_once (kill_daemon_server Offline.host) (Demo.state ["62485"] 0 false)
    (Raise Demo.refused).
Proof.
  destruct (feature_requests_fail_once Offline.host (Demo.state ["62485"] 0 false)
              "62485" [] Demo.refused eq_refl (λ _, eq_refl))
    as (Hsearch & Hrest).
  split; [apply Hsearch|]. apply Hrest.
Defined.

(** X21: no operation of the gateway looks at the status code.  When the
    network answers with [resp], whatever its status, [search_asset],
    [download_asset] and [upload_asset] return the parsed body — or raise
    what the parser raises —, [get_download_url] returns the pair of the
    parsed body's [has_url] and [asset_data] entries, and the thirteen other
    operations return [resp] as it is. *)
Theorem feature_responses_are_not_checked (host : Host) (st : State)
    (p : string) (rest : list string) (resp : Response) :
  DAEMON_PORTS st = p :: rest →
  (∀ r, http host (sent st) r = inr resp) →
  (∀ data,
     asks_once (search_asset host data) st (outcome_result (resp_json resp))) ∧
  (∀ data,
     asks_once (download_asset host data) st (outcome_result (resp_json resp))) ∧
  (∀ upload_data export_data upload_set,
     asks_once (upload_asset host upload_data export_data upload_set) st
       (outcome_result (resp_json resp))) ∧
  (∀ task_id, asks_once (kill_download host task_id) st (Return resp)) ∧
  (∀ author_data, asks_once (fetch_gravatar_image host author_data) st (Return resp)) ∧
  (∀ api_key, asks_once (get_user_profile host api_key) st (Return resp)) ∧
  (∀ asset_id api_key,
     asks_once (get_comments host asset_id api_key) st (Return resp)) ∧
  (∀ asset_id comment_text api_key reply_to_id,
     asks_once (create_comment host asset_id comment_text api_key reply_to_id) st
       (Return resp)) ∧
  (∀ asset_id comment_id api_key flag,
     asks_once (feedback_comment host asset_id comment_id api_key flag) st
       (Return resp)) ∧
  (∀ asset_id comment_id api_key is_private,
     asks_once (mark_comment_private host asset_id comment_id api_key is_private) st
       (Return resp)) ∧
  (∀ notification_id,
     asks_once (mark_notification_read host notification_id) st (Return resp)) ∧
  (∀ report, asks_once (report_usages host report) st (Return resp)) ∧
  (∀ code_verifier,
     asks_once (send_code_verifier host code_verifier) st (Return resp)) ∧
  (∀ token, asks_once (refresh_token host token) st (Return resp)) ∧
  asks_once (report_blender_quit host) st (Return resp) ∧
  asks_once (kill_daemon_server host) st (Return resp) ∧
  (∀ asset_data scene_id api_key body has_url asset_data',
     resp_json resp = inr body →
     subscript body "has_url" = inr has_url →
     subscript body "asset_data" = inr asset_data' →
     asks_once (get_download_url host asset_data scene_id api_key) st
       (Return (has_url, asset_data'))).
Proof.
  intros Hports Hnet. split_and!; intros.
  - unfold search_asset. asks Hports Hnet.
  - unfold download_asset. asks Hports Hnet.
  - unfold upload_asset. asks Hports Hnet.
  - unfold kill_download. asks Hports Hnet.
  - unfold fetch_gravatar_image. asks Hports Hnet.
  - unfold get_user_profile. asks Hports Hnet.
  - unfold get_comments. asks Hports Hnet.
  - unfold create_comment. asks Hports Hnet.
  - unfold feedback_comment. asks Hports Hnet.
  - unfold mark_comment_private. asks Hports Hnet.
  - unfold mark_notification_read. asks Hports Hnet.
  - unfold report_usages. asks Hports Hnet.
  - unfold send_code_verifier. asks Hports Hnet.
  - unfold refresh_token. asks Hports Hnet.
  - unfold report_blender_quit. asks Hports Hnet.
  - unfold kill_daemon_server. asks Hports Hnet.
  - unfold get_download_url, asks_once, session_get, session_request,
      get_address, get_port.
    run. rewrite Hports. simpl. rewrite Hnet. simpl.
    match goal with
    | Hb : resp_json resp = inr _, Hh : subscript _ "has_url" = inr _,
      Ha : subscript _ "asset_data" = inr _ |- _ =>
        rewrite Hb; simpl; rewrite Hh; simpl; rewrite Ha; simpl
    end.
    split; [reflexivity|by eexists].
Qed.

Lemma feature_responses_are_not_checked_witness :
  asks_once
    (search_asset
       (on_network (answering {| status_code := 500; text := "{}";
                                 resp_json := inr (JDict url_body) |})) ∅)
    (Demo.state ["62485"] 0 false) (Return (JDict url_body)) ∧
  asks_once
    (kill_download
       (on_network (answering {| status_code := 500; text := "{}";
                                 resp_json := inr (JDict url_body) |})) (JStr "task"))
    (Demo.state ["62485"] 0 false)
    (Return {| status_code := 500; text := "{}"; resp_json := inr (JDict url_body) |}) ∧
  asks_once
    (get_download_url
       (on_network (answering {| status_code := 500; text := "{}";
                                 resp_json := inr (JDict url_body) |}))
       (JStr "asset") (JStr "scene") (JStr "KEY"))
    (Demo.state ["62485"] 0 false) (Return (JBool true, JStr "asset")).
Proof.
  destruct (feature_responses_are_not_checked
              (on_network (answering {| status_code := 500; text := "{}";
                                        resp_json := inr (JDict url_body) |}))
              (Demo.state ["62485"] 0 false) "62485" []
              {| status_code := 500; text := "{}"; resp_json := inr (JDict url_body) |}
              eq_refl (λ _, eq_refl))
    as (Hsearch & _ & _ & Hkill & _ & _ & _ & _ & _ & _ & _ & _ & _ & _ & _ & _ & Hurl).
  split_and!; [apply Hsearch|apply Hkill|].
  apply (Hurl (JStr "asset") (JStr "scene") (JStr "KEY") (JDict url_body)).
  - reflexivity.
  - vm_compute. reflexivity.
  - vm_compute. reflexivity.
Defined.

(** X22: [get_download_url] returns the pair of the response's [has_url] and
    [asset_data] entries; a response without [has_url] raises a [KeyError]
    that names that key, one with [has_url] but without [asset_data] a
    [KeyError] that names the other, a body that is not a dictionary a
    [TypeError], and a body that does not parse what the parser raises. *)
Theorem get_download_url_result (host : Host) (st : State) (p : string)
    (rest : list string) (resp : Response) (asset_data scene_id api_key : json) :
  DAEMON_PORTS st = p :: rest →
  (∀ r, http host (sent st) r = inr resp) →
  (∀ d has_url asset_data',
     resp_json resp = inr (JDict d) →
     d !! "has_url" = Some has_url →
     d !! "asset_data" = Some asset_data' →
     (get_download_url host asset_data scene_id api_key st).1 =
       Return (has_url, asset_data')) ∧
  (∀ d,
     resp_json resp = inr (JDict d) →
     d !! "has_url" = None →
     ∃ e, (get_download_url host asset_data scene_id api_key st).1 = Raise e ∧
          exn_type e = KeyError ∧ contains "has_url" (exn_str e) = true) ∧
  (∀ d has_url,
     resp_json resp = inr (JDict d) →
     d !! "has_url" = Some has_url →
     d !! "asset_data" = None →
     ∃ e, (get_download_url host asset_data scene_id api_key st).1 = Raise e ∧
          exn_type e = KeyError ∧ contains "asset_data" (exn_str e) = true) ∧
  (∀ j,
     resp_json resp = inr j →
     (∀ d, j ≠ JDict d) →
     ∃ e, (get_download_url host asset_data scene_id api_key st).1 = Raise e ∧
          exn_type e = TypeError) ∧
  (∀ e,
     resp_json resp = inl e →
     (get_download_url host asset_data scene_id api_key st).1 = Raise e).
Proof.
  intros Hports Hnet.
  unfold get_download_url, session_get, session_request, get_address, get_port.
  run. rewrite Hports. simpl. rewrite Hnet. simpl.
  split_and!.
  - intros d h a -> Hh Ha. simpl. by rewrite Hh, Ha.
  - intros d -> Hh. simpl. rewrite Hh. by eexists.
  - intros d h -> Hh Ha. simpl. rewrite Hh, Ha. by eexists.
  - intros j -> Hj. destruct j; simpl; try by eexists.
    by destruct (Hj d).
  - by intros e ->.
Qed.

Lemma get_download_url_result_witness :
  (get_download_url (on_network (answering (ok_response url_body)))
     (JStr "asset") (JStr "scene") (JStr "KEY") (Demo.state ["62485"] 0 false)).1 =
    Return (JBool true, JStr "asset") ∧
  ∃ e,
    (get_download_url (on_network (answering (ok_response ∅)))
       (JStr "asset") (JStr "scene") (JStr "KEY") (Demo.state ["62485"] 0 false)).1 =
      Raise e ∧
    exn_type e = KeyError ∧ contains "has_url" (exn_str e) = true.
Proof.
  split.
  - destruct (get_download_url_result (on_network (answering (ok_response url_body)))
                (Demo.state ["62485"] 0 false) "62485" [] (ok_response url_body)
                (JStr "asset") (JStr "scene") (JStr "KEY") eq_refl (λ _, eq_refl))
      as (Hpair & _).
    apply (Hpair url_body); [reflexivity|vm_compute; reflexivity|vm_compute; reflexivity].
  - destruct (get_download_url_result (on_network (answering (ok_response ∅)))
                (Demo.state ["62485"] 0 false) "62485" [] (ok_response ∅)
                (JStr "asset") (JStr "scene") (JStr "KEY") eq_refl (λ _, eq_refl))
      as (_ & Hmissing & _).
    apply (Hmissing ∅); [reflexivity|vm_compute; reflexivity].
Defined.

(** ** Status notifier: the logo *)

(** X23: the notifier writes the online flag, the logo and the reports and
    nothing else, and it keeps the logo in step with the flag: whenever a
    task changes the flag the logo shows the new state, and a logo that
    showed the flag's state before a task shows it after. *)
Theorem handle_daemon_status_task_logo (host : Host) (task : gmap string json)
    (st : State) :
  is_Some (task !! "online_status") →
  let st' := (handle_daemon_status_task host task st).2 in
  (DAEMON_ONLINE st' ≠ DAEMON_ONLINE st → logo_matches st') ∧
  (logo_matches st → logo_matches st') ∧
  DAEMON_PORTS st' = DAEMON_PORTS st ∧
  DAEMON_FAILED_REPORTS st' = DAEMON_FAILED_REPORTS st ∧
  daemon_process st' = daemon_process st ∧
  sent st' = sent st ∧
  logs st' = logs st.
Proof.
  intros [status Hstatus]. unfold logo_matches.
  rewrite (handle_daemon_status_task_run host task status st Hstatus). simpl.
  destruct (eq_int status 200); destruct (DAEMON_ONLINE st) eqn:Hflag; simpl;
    rewrite ?Hflag; split_and!; done.
Qed.

Lemma handle_daemon_status_task_logo_witness :
  logo_matches
    (handle_daemon_status_task Demo.host (Demo.status_task 200)
       (Demo.state ["62485"] 0 false)).2 ∧
  DAEMON_PORTS
    (handle_daemon_status_task Demo.host (Demo.status_task 200)
       (Demo.state ["62485"] 0 false)).2 = ["62485"].
Proof.
  destruct (handle_daemon_status_task_logo Demo.host (Demo.status_task 200)
              (Demo.state ["62485"] 0 false)) as (Hflip & _ & Hports & _).
  - by eexists.
  - split; [|exact Hports]. apply Hflip. simpl. discriminate.
Defined.
